(** * frontier_utils: CTest transcript parser, string helpers and dispatcher

    A shallow embedding of [components/omega/perf/frontier/frontier_utils.py].

    Python [str] values are modelled as [string]; a character is an [ascii],
    read as the code point of the same number.  [str.isspace] is the one of
    Python on the code points 0..255.  [str.upper] is no part of the
    program: its case table belongs to the interpreter.  It is a parameter
    [upper] of [to_upper] and of the dispatcher that calls it, and the
    statements that depend on the table name the facts of [str.upper] they
    use.  [Py.ascii_upper], the case map of ASCII text, is one such map;
    it serves as an example.

    A Python call either returns a value or raises; this is the [result]
    type below.  The dispatcher also prints, so [main] runs in a small
    monad that logs the events (lookup, call, print) in order. *)

From Stdlib Require Import String Ascii List ZArith Lia Bool Arith.
From Equations Require Import Equations.
Import ListNotations.

Open Scope string_scope.
Open Scope list_scope.

(* ===================================================================== *)
(** ** Exceptions and results *)
(* ===================================================================== *)

Inductive exn : Type :=
| IndexError
| KeyError (key : string)
| ValueError (msg : string)
| TypeError (msg : string).

Inductive result (A : Type) : Type :=
| Returned (a : A)
| Raised (e : exn).

Arguments Returned {A} a.
Arguments Raised {A} e.

Definition bind {A B : Type} (r : result A) (k : A -> result B) : result B :=
  match r with
  | Returned a => k a
  | Raised e => Raised e
  end.

Notation "x <- r ;; k" := (bind r (fun x => k))
  (at level 61, r at next level, right associativity).

(* ===================================================================== *)
(** ** The Python string and list primitives the program uses *)
(* ===================================================================== *)

Module Py.

(** [len(s)] *)
Definition len (s : string) : Z := Z.of_nat (String.length s).

(** [sep.join(l)] *)
Definition join (sep : string) (l : list string) : string :=
  String.concat sep l.

(** [s.find(sub)]: index of the first occurrence, or -1. *)
Definition find (s sub : string) : Z :=
  match String.index 0 sub s with
  | Some n => Z.of_nat n
  | None => (-1)%Z
  end.

(** [s[n:]] for a natural [n]: the characters from position [n] on. *)
Fixpoint drop (n : nat) (s : string) : string :=
  match n, s with
  | O, _ => s
  | S _, EmptyString => EmptyString
  | S n', String _ s' => drop n' s'
  end.

(** [s[start:]]: a negative [start] counts from the end, clamped at 0. *)
Definition slice_from (s : string) (start : Z) : string :=
  let start' := if (start <? 0)%Z then Z.max 0 (start + len s) else start in
  drop (Z.to_nat start') s.

(** [sub in s] on strings: substring test. *)
Definition contains (sub s : string) : bool := (0 <=? find s sub)%Z.

(** [c.isspace()] for one character. *)
Definition isspace (c : ascii) : bool :=
  let n := nat_of_ascii c in
  ((9 <=? n)%nat && (n <=? 13)%nat) || ((28 <=? n)%nat && (n <=? 32)%nat)
  || (n =? 133)%nat || (n =? 160)%nat.

(** [s.split()]: the maximal runs of non-whitespace characters, in order.
    [cur] is the run being read. *)
Fixpoint split_ws_from (cur : string) (s : string) : list string :=
  match s with
  | EmptyString =>
      match cur with EmptyString => [] | _ => [cur] end
  | String c s' =>
      if isspace c then
        match cur with
        | EmptyString => split_ws_from EmptyString s'
        | _ => cur :: split_ws_from EmptyString s'
        end
      else split_ws_from (cur ++ String c EmptyString) s'
  end.

Definition split_ws (s : string) : list string := split_ws_from EmptyString s.

(** [s.split(sep)] for a non-empty [sep]: cut at each leftmost occurrence of
    [sep], scanning left to right.  [skip] counts the characters of a
    separator that the scan is still stepping over; [cur] is the piece
    being read. *)
Fixpoint split_from (sep : string) (skip : nat) (cur : string) (s : string)
  : list string :=
  match s with
  | EmptyString => [cur]
  | String c s' =>
      match skip with
      | S k => split_from sep k cur s'
      | O =>
          if String.prefix sep s
          then cur :: split_from sep (String.length sep - 1) EmptyString s'
          else split_from sep 0 (cur ++ String c EmptyString) s'
      end
  end.

Definition split (s sep : string) : list string :=
  split_from sep 0 EmptyString s.

(** The case map of ASCII text: the letters a to z go to A to Z and every
    other character stays.  It is [str.upper] on ASCII text only, and it is
    not used by the model of the program: it is an example of a case
    map. *)
Definition ascii_upper_char (c : ascii) : ascii :=
  let n := nat_of_ascii c in
  if (97 <=? n)%nat && (n <=? 122)%nat then ascii_of_nat (n - 32) else c.

Fixpoint ascii_upper (s : string) : string :=
  match s with
  | EmptyString => EmptyString
  | String c s' => String (ascii_upper_char c) (ascii_upper s')
  end.

(** [l[i]] for a natural [i]. *)
Definition getitem {A : Type} (l : list A) (i : nat) : result A :=
  match nth_error l i with
  | Some a => Returned a
  | None => Raised IndexError
  end.

(** [l[-1]] *)
Definition last_item {A : Type} (l : list A) : result A :=
  match rev l with
  | a :: _ => Returned a
  | [] => Raised IndexError
  end.

(** [[ch for ch in s]]: the characters of [s] as one-character strings. *)
Fixpoint chars (s : string) : list string :=
  match s with
  | EmptyString => []
  | String c s' => String c EmptyString :: chars s'
  end.

End Py.

(* ===================================================================== *)
(** ** The string helpers *)
(* ===================================================================== *)

(** [words = input_str.split(); return ";".join(words[::-1])] *)
Definition reverse_words (input_str : string) : string :=
  let words := Py.split_ws input_str in
  Py.join ";" (rev words).

(** [words = input_str.split(); return ";".join([word.upper() for word in words])],
    where [upper] is [str.upper]. *)
Definition to_upper (upper : string -> string) (input_str : string) : string :=
  let words := Py.split_ws input_str in
  Py.join ";" (map upper words).

(** [vowels = "aeiouAEIOU";
     return ";".join([char for char in input_str if char not in vowels])] *)
Definition remove_vowels (input_str : string) : string :=
  let vowels := "aeiouAEIOU" in
  Py.join ";"
    (filter (fun char => negb (Py.contains char vowels)) (Py.chars input_str)).

(* ===================================================================== *)
(** ** The CTest output parser *)
(* ===================================================================== *)

Definition CmdStr : string := ": Test command: ".
Definition DirStr : string := ": Working Directory:".
Definition TestStr : string := "Test".

(** One pass through the body of [while index < len(lines)], from the
    cursor [index] and the records [ctests] collected so far: the cursor
    and the records at the next test of the loop condition ([continue] or
    the end of the body), or the exception that leaves the loop. *)
Definition get_ctests_body (lines : list string) (index : nat)
    (ctests : list string) : result (nat * list string) :=
  line <- Py.getitem lines index ;;
  let index := index + 1 in
  let posCmd := Py.find line CmdStr in
  if (posCmd <? 0)%Z then Returned (index, ctests) else
  let Cmd := Py.slice_from line (posCmd + Py.len CmdStr) in
  Exe <- Py.last_item (Py.split_ws Cmd) ;;
  line <- Py.getitem lines index ;;
  let index := index + 1 in
  let posDir := Py.find line DirStr in
  if (posDir <? 0)%Z then Returned (index, ctests) else
  let Dir := Py.slice_from line (posDir + Py.len DirStr) in
  line <- Py.getitem lines index ;;
  let index := index + 1 in
  let posTest := Py.find line TestStr in
  if (posTest <? 0)%Z then Returned (index, ctests) else
  Test <- Py.last_item (Py.split_ws line) ;;
  Returned (index, ctests ++ [(Cmd ++ "," ++ Exe ++ "," ++ Dir ++ "," ++ Test)%string]).

Definition inspect {A : Type} (a : A) : {b : A | a = b} :=
  exist _ a eq_refl.

(** [while index < len(lines): <body>], then the value of [ctests].  The
    recursion is well founded on the number of lines from the cursor on. *)
Equations? get_ctests_loop (lines : list string) (index : nat)
    (ctests : list string) : result (list string)
    by wf (length lines - index) lt :=
  get_ctests_loop lines index ctests with inspect (index <? length lines)%nat := {
    | exist _ false _ => Returned ctests
    | exist _ true Hlt with inspect (get_ctests_body lines index ctests) := {
        | exist _ (Raised e) _ => Raised e
        | exist _ (Returned (index', ctests')) Hbody =>
            get_ctests_loop lines index' ctests' } }.
Proof.
  (* every pass moves the cursor forward *)
  apply Nat.ltb_lt in Hlt.
  assert (index < index').
  { revert Hbody. unfold get_ctests_body, bind.
    repeat match goal with
           | |- context [match ?x with _ => _ end] => destruct x
           end; intros H; inversion H; lia. }
  lia.
Qed.

(** [get_ctests(ctest_output)] *)
Definition get_ctests (ctest_output : string) : result string :=
  let lines := Py.split ctest_output "_NEWLINE_" in
  ctests <- get_ctests_loop lines 0 [] ;;
  Returned (Py.join ";" ctests).

(* ===================================================================== *)
(** ** The command dispatcher *)
(* ===================================================================== *)

(** The functions the module defines with [def]. *)
Inductive function : Type :=
| F_get_ctests
| F_reverse_words
| F_to_upper
| F_remove_vowels
| F_main.

(** The objects bound in the module's global namespace: its functions, and
    the objects that are not callable (the imported modules [sys] and [re]
    and the attributes the interpreter gives a script, such as [__name__]). *)
Inductive pyobj : Type :=
| Function (f : function)
| Module (name : string)
| Attribute (name : string).

(** [globals()] when [main] runs, as an association list. *)
Definition globals : list (string * pyobj) :=
  [ ("__name__", Attribute "__name__");
    ("__doc__", Attribute "__doc__");
    ("__package__", Attribute "__package__");
    ("__loader__", Attribute "__loader__");
    ("__spec__", Attribute "__spec__");
    ("__annotations__", Attribute "__annotations__");
    ("__builtins__", Module "builtins");
    ("__file__", Attribute "__file__");
    ("__cached__", Attribute "__cached__");
    ("sys", Module "sys");
    ("re", Module "re");
    ("get_ctests", Function F_get_ctests);
    ("reverse_words", Function F_reverse_words);
    ("to_upper", Function F_to_upper);
    ("remove_vowels", Function F_remove_vowels);
    ("main", Function F_main) ].

(** [d[key]] on a namespace. *)
Fixpoint lookup (d : list (string * pyobj)) (key : string) : result pyobj :=
  match d with
  | [] => Raised (KeyError key)
  | (k, v) :: d' => if String.eqb k key then Returned v else lookup d' key
  end.

(** [callable(obj)] *)
Definition callable (obj : pyobj) : bool :=
  match obj with
  | Function _ => true
  | Module _ | Attribute _ => false
  end.

(** What the dispatcher does that can be observed, in order. *)
Inductive event : Type :=
| Lookup (name : string)
| Call (f : function) (arg : string)
| Print (text : string).

(** A computation that logs events and returns or raises. *)
Definition io (A : Type) : Type := (list event * result A)%type.

Definition io_ret {A : Type} (a : A) : io A := ([], Returned a).

Definition io_raise {A : Type} (e : exn) : io A := ([], Raised e).

Definition io_emit (ev : event) : io unit := ([ev], Returned tt).

Definition io_lift {A : Type} (r : result A) : io A := ([], r).

Definition io_bind {A B : Type} (m : io A) (k : A -> io B) : io B :=
  match m with
  | (t, Returned a) => let (t', r) := k a in (t ++ t', r)
  | (t, Raised e) => (t, Raised e)
  end.

Notation "x <~ m ;; k" := (io_bind m (fun x => k))
  (at level 61, m at next level, right associativity).

(** [try: m except KeyError: handler] *)
Definition try_except_KeyError {A : Type} (m : io A) (handler : io A) : io A :=
  match m with
  | (t, Raised (KeyError _)) => let (t', r) := handler in (t ++ t', r)
  | _ => m
  end.

(** [func(arg)] for a function of the module, with one positional argument.
    [main] takes no parameter, so the call raises before its body runs. *)
Definition call (upper : string -> string) (func : function) (arg : string)
  : io string :=
  _ <~ io_emit (Call func arg) ;;
  match func with
  | F_get_ctests => io_lift (get_ctests arg)
  | F_reverse_words => io_ret (reverse_words arg)
  | F_to_upper => io_ret (to_upper upper arg)
  | F_remove_vowels => io_ret (remove_vowels arg)
  | F_main =>
      io_raise (TypeError "main() takes 0 positional arguments but 1 was given")
  end.

(** [obj(arg)]: only functions get here, the dispatcher has tested
    [callable] before. *)
Definition call_obj (upper : string -> string) (obj : pyobj) (arg : string)
  : io string :=
  match obj with
  | Function f => call upper f arg
  | Module _ => io_raise (TypeError "'module' object is not callable")
  | Attribute _ => io_raise (TypeError "object is not callable")
  end.

(** [main()], given [sys.argv]; [upper] is the [str.upper] that [to_upper]
    calls.  [main] returns [""] on the short path and [None] after
    printing: [Some ""] and [None] here. *)
Definition main (upper : string -> string) (argv : list string)
  : io (option string) :=
  if (length argv <? 3)%nat then io_ret (Some "") else
  function_name <~ io_lift (Py.getitem argv 1) ;;
  let input_argument := Py.join " " (skipn 2 argv) in
  func <~ try_except_KeyError
            (func <~ (_ <~ io_emit (Lookup function_name) ;;
                      io_lift (lookup globals function_name)) ;;
             if negb (callable func)
             then io_raise (ValueError (function_name ++ " is not callable"))
             else io_ret func)
            (io_raise
               (ValueError ("No function named '" ++ function_name ++ "' found."))) ;;
  result <~ call_obj upper func input_argument ;;
  _ <~ io_emit (Print result) ;;
  io_ret None.


(* ===================================================================== *)
(** ** Vocabulary of the statements *)
(* ===================================================================== *)

(** Some character of [s] is whitespace. *)
Fixpoint has_space (s : string) : bool :=
  match s with
  | EmptyString => false
  | String c s' => Py.isspace c || has_space s'
  end.

(** The ten vowels that [remove_vowels] drops. *)
Definition vowel_set : list ascii :=
  ["a"; "e"; "i"; "o"; "u"; "A"; "E"; "I"; "O"; "U"]%char.

Definition is_vowel (c : ascii) : bool := existsb (Ascii.eqb c) vowel_set.

(** The characters of [s] outside [vowel_set], in their order in [s]. *)
Definition survivors (s : string) : list ascii :=
  filter (fun c => negb (is_vowel c)) (list_ascii_of_string s).

(** The characters of [l], with one [";"] between two neighbours. *)
Fixpoint semicolon_separated (l : list ascii) : string :=
  match l with
  | [] => EmptyString
  | [c] => String c EmptyString
  | c :: l' => String c (String ";" (semicolon_separated l'))
  end.

(** The text of [line] after the first occurrence of [marker]. *)
Definition text_after (line marker : string) : string :=
  Py.slice_from line (Py.find line marker + Py.len marker).

(** [group_at lines i r]: the lines at [i], [i + 1] and [i + 2] are a
    command line, a directory line and a test-name line, in that order, and
    [r] is the record made of them: the command, its last word, the
    directory and the last word of the test-name line. *)
Inductive group_at (lines : list string) (i : nat) : string -> Prop :=
| group_at_intro (l1 l2 l3 Exe Test : string) :
    nth_error lines i = Some l1 ->
    nth_error lines (i + 1) = Some l2 ->
    nth_error lines (i + 2) = Some l3 ->
    (0 <= Py.find l1 CmdStr)%Z ->
    (0 <= Py.find l2 DirStr)%Z ->
    (0 <= Py.find l3 TestStr)%Z ->
    Py.last_item (Py.split_ws (text_after l1 CmdStr)) = Returned Exe ->
    Py.last_item (Py.split_ws l3) = Returned Test ->
    group_at lines i
      (text_after l1 CmdStr ++ "," ++ Exe ++ ","
         ++ text_after l2 DirStr ++ "," ++ Test)%string.

(** [emitted_from lines lo idxs rs]: the records [rs] are those of the
    groups that start at the lines [idxs], one record per group and in the
    same order; the groups start at [lo] or later, go up and do not
    overlap. *)
Inductive emitted_from (lines : list string)
  : nat -> list nat -> list string -> Prop :=
| emitted_nil (lo : nat) : emitted_from lines lo [] []
| emitted_cons (lo i : nat) (r : string) (idxs : list nat) (rs : list string) :
    lo <= i ->
    group_at lines i r ->
    emitted_from lines (i + 3) idxs rs ->
    emitted_from lines lo (i :: idxs) (r :: rs).

(** The names of the four functions the tool exposes. *)
Definition exposed : list string :=
  ["get_ctests"; "reverse_words"; "to_upper"; "remove_vowels"].

(** Every character of [s] is whitespace; so it is of the empty string. *)
Fixpoint all_space (s : string) : bool :=
  match s with
  | EmptyString => true
  | String c s' => Py.isspace c && all_space s'
  end.

(** [c] is one of the letters a to z. *)
Definition is_lower (c : ascii) : bool :=
  let n := nat_of_ascii c in (97 <=? n)%nat && (n <=? 122)%nat.

(** Some character of [s] is one of the letters a to z. *)
Fixpoint has_lower (s : string) : bool :=
  match s with
  | EmptyString => false
  | String c s' => is_lower c || has_lower s'
  end.

(** Some character of [s] is one of the ten vowels. *)
Fixpoint has_vowel (s : string) : bool :=
  match s with
  | EmptyString => false
  | String c s' => is_vowel c || has_vowel s'
  end.

(** The last word of [s]; the empty string when [s] has no word. *)
Definition last_word (s : string) : string :=
  match Py.last_item (Py.split_ws s) with
  | Returned w => w
  | Raised _ => EmptyString
  end.

(** The record made of a command line, a directory line and a test-name
    line: the command, its last word, the directory, the last word of the
    test-name line, with commas between. *)
Definition record_of (c d t : string) : string :=
  (text_after c CmdStr ++ "," ++ last_word (text_after c CmdStr) ++ ","
     ++ text_after d DirStr ++ "," ++ last_word t)%string.

(** [aligned lines rs]: read from its first line, the transcript [lines] is
    a sequence of lines without the command marker and of complete groups
    (a command line with a command that is not blank, then a directory
    line, then a test-name line), and [rs] lists the records of the groups
    in order. *)
Inductive aligned : list string -> list string -> Prop :=
| aligned_nil : aligned [] []
| aligned_other (l : string) (ls rs : list string) :
    (Py.find l CmdStr < 0)%Z ->
    aligned ls rs ->
    aligned (l :: ls) rs
| aligned_group (c d t : string) (ls rs : list string) :
    (0 <= Py.find c CmdStr)%Z ->
    all_space (text_after c CmdStr) = false ->
    (0 <= Py.find d DirStr)%Z ->
    (0 <= Py.find t TestStr)%Z ->
    aligned ls rs ->
    aligned (c :: d :: t :: ls) (record_of c d t :: rs).

(** What a call of [func] on one argument returns or raises. *)
Definition call_result (upper : string -> string) (func : function)
    (arg : string) : result string :=
  snd (call upper func arg).

(** A word: not empty, and without whitespace. *)
Definition is_word (w : string) : Prop := has_space w = false /\ w <> "".

(** Facts of [str.upper] that statements about [to_upper] rely on.  The
    upper case of a text is made character by character; [";"] has no
    case; a text in upper case is its own upper case; the upper case of a
    word is a word; no letter a to z is left in upper case. *)
Definition upper_charwise (upper : string -> string) : Prop :=
  forall a b : string, upper (a ++ b)%string = (upper a ++ upper b)%string.

Definition upper_fixes_semicolon (upper : string -> string) : Prop :=
  upper ";" = ";".

Definition upper_stable (upper : string -> string) : Prop :=
  forall s : string, upper (upper s) = upper s.

Definition upper_keeps_words (upper : string -> string) : Prop :=
  forall w : string, is_word w -> is_word (upper w).

Definition upper_leaves_no_lower (upper : string -> string) : Prop :=
  forall s : string, has_lower (upper s) = false.

(* ===================================================================== *)
(** * Properties *)
(* ===================================================================== *)

(** ** Strings *)

Lemma append_empty_r (s : string) : (s ++ "")%string = s.
Proof. induction s as [|c s IH]; simpl; [reflexivity | now rewrite IH]. Qed.

Lemma append_assoc (a b c : string) :
  ((a ++ b) ++ c)%string = (a ++ b ++ c)%string.
Proof. induction a as [|x a IH]; simpl; [reflexivity | now rewrite IH]. Qed.

Lemma append_eq_empty (a b : string) :
  (a ++ b)%string = "" -> a = "" /\ b = "".
Proof. destruct a; simpl; [auto | discriminate]. Qed.

Lemma has_space_append (a b : string) :
  has_space (a ++ b) = has_space a || has_space b.
Proof.
  induction a as [|c a IH]; simpl; [reflexivity |].
  rewrite IH. apply orb_assoc.
Qed.

(** *** [str.split(sep)] *)

(** Stepping over the rest of a separator is dropping that many
    characters. *)
Lemma split_from_skip (sep : string) (k : nat) (cur s : string) :
  Py.split_from sep k cur s = Py.split_from sep 0 cur (Py.drop k s).
Proof.
  revert k. induction s as [|c s IH]; intros [|k]; try reflexivity.
  simpl Py.drop. rewrite <- IH. reflexivity.
Qed.

(** [split] cuts at the leftmost occurrence of the separator and goes on
    after it; a text without the separator is one piece. *)
Lemma split_from_spec (sep : string) :
  sep <> "" ->
  forall s cur,
    Py.split_from sep 0 cur s =
    match String.index 0 sep s with
    | None => [(cur ++ s)%string]
    | Some p =>
        (cur ++ String.substring 0 p s)%string
          :: Py.split_from sep 0 "" (Py.drop (p + String.length sep) s)
    end.
Proof.
  intros Hsep. induction s as [|c s IH]; intros cur.
  - destruct sep; [contradiction |]. simpl. now rewrite append_empty_r.
  - cbn [Py.split_from String.index].
    destruct (String.prefix sep (String c s)) eqn:Hp.
    + rewrite split_from_skip, append_empty_r.
      destruct sep as [|x sep']; [contradiction |].
      cbn [String.length Nat.add Py.drop Nat.sub]. now rewrite Nat.sub_0_r.
    + rewrite IH. destruct (String.index 0 sep s) as [p|].
      * cbn [Nat.add Py.drop String.substring].
        now rewrite append_assoc.
      * now rewrite append_assoc.
Qed.

Lemma split_spec (s sep : string) :
  sep <> "" ->
  Py.split s sep =
  match String.index 0 sep s with
  | None => [s]
  | Some p =>
      String.substring 0 p s :: Py.split (Py.drop (p + String.length sep) s) sep
  end.
Proof. intros Hsep. unfold Py.split. now rewrite split_from_spec. Qed.

(** *** [str.split()] *)

(** A text without whitespace is one word, or none when it is empty. *)
Lemma split_ws_from_no_space (s cur : string) :
  has_space s = false ->
  Py.split_ws_from cur s =
  match (cur ++ s)%string with EmptyString => [] | w => [w] end.
Proof.
  revert cur. induction s as [|c s IH]; intros cur Hs; simpl in *.
  - rewrite append_empty_r. destruct cur; reflexivity.
  - apply orb_false_iff in Hs. destruct Hs as [Hc Hs].
    rewrite Hc, (IH _ Hs), append_assoc. reflexivity.
Qed.

Lemma split_ws_no_space (s : string) :
  has_space s = false -> s <> "" -> Py.split_ws s = [s].
Proof.
  intros Hs Hne. unfold Py.split_ws.
  rewrite (split_ws_from_no_space _ _ Hs). simpl.
  destruct s; [contradiction | reflexivity].
Qed.

(** The words of a text are non-empty and free of whitespace. *)
Lemma split_ws_from_words (s cur : string) :
  has_space cur = false ->
  Forall is_word (Py.split_ws_from cur s).
Proof.
  revert cur. induction s as [|c s IH]; intros cur Hcur; simpl.
  - destruct cur; constructor; [split; [assumption | discriminate] | constructor].
  - destruct (Py.isspace c) eqn:Hc.
    + destruct cur.
      * apply IH. reflexivity.
      * constructor; [split; [assumption | discriminate] | apply IH; reflexivity].
    + apply IH. rewrite has_space_append. simpl. now rewrite Hcur, Hc.
Qed.

Lemma split_ws_words (s : string) : Forall is_word (Py.split_ws s).
Proof. apply split_ws_from_words. reflexivity. Qed.

(** *** [";".join] *)

Lemma join_cons (sep w : string) (l : list string) :
  l <> [] -> Py.join sep (w :: l) = (w ++ sep ++ Py.join sep l)%string.
Proof. destruct l; [contradiction | reflexivity]. Qed.

Lemma join_words (l : list string) :
  Forall is_word l -> l <> [] -> is_word (Py.join ";" l).
Proof.
  induction 1 as [|w l [Hw Hne] Hl IH]; intros Hnil; [contradiction |].
  destruct l as [|w' l'].
  - simpl. split; assumption.
  - rewrite join_cons by discriminate.
    destruct IH as [IHs IHne]; [discriminate |].
    split.
    + rewrite !has_space_append, Hw, IHs. reflexivity.
    + intros H. apply append_eq_empty in H. tauto.
Qed.

(** A call of [split] on a joined list of words sees one word. *)
Lemma split_ws_join_words (l : list string) :
  Forall is_word l -> l <> [] ->
  Py.split_ws (Py.join ";" l) = [Py.join ";" l].
Proof.
  intros Hl Hnil. destruct (join_words l Hl Hnil) as [Hs Hne].
  apply split_ws_no_space; assumption.
Qed.

(** *** Case maps *)

(** A character-wise case map that fixes [";"] goes through [";".join]. *)
Lemma upper_join (upper : string -> string) (l : list string) :
  upper_charwise upper -> upper_fixes_semicolon upper ->
  l <> [] ->
  upper (Py.join ";" l) = Py.join ";" (map upper l).
Proof.
  intros Happ Hsemi.
  induction l as [|w l IH]; intros Hne; [contradiction |].
  destruct l as [|w' l']; [reflexivity |].
  rewrite join_cons by discriminate.
  change (map upper (w :: w' :: l'))
    with (upper w :: map upper (w' :: l')).
  rewrite (join_cons _ (upper w)) by (simpl; discriminate).
  rewrite !Happ, Hsemi, IH by discriminate. reflexivity.
Qed.

Lemma map_upper_words (upper : string -> string) (l : list string) :
  upper_keeps_words upper ->
  Forall is_word l -> Forall is_word (map upper l).
Proof. intros Hw. induction 1; constructor; auto. Qed.

(** The case map of ASCII text has the five properties. *)
Lemma isspace_ascii_upper_char (c : ascii) :
  Py.isspace (Py.ascii_upper_char c) = Py.isspace c.
Proof.
  destruct c as [[|] [|] [|] [|] [|] [|] [|] [|]]; reflexivity.
Qed.

Lemma ascii_upper_char_stable (c : ascii) :
  Py.ascii_upper_char (Py.ascii_upper_char c) = Py.ascii_upper_char c.
Proof.
  destruct c as [[|] [|] [|] [|] [|] [|] [|] [|]]; reflexivity.
Qed.

Lemma is_lower_ascii_upper_char (c : ascii) :
  is_lower (Py.ascii_upper_char c) = false.
Proof.
  destruct c as [[|] [|] [|] [|] [|] [|] [|] [|]]; reflexivity.
Qed.

Lemma ascii_upper_charwise : upper_charwise Py.ascii_upper.
Proof.
  intros a b. induction a as [|c a IH]; simpl; [reflexivity | now rewrite IH].
Qed.

Lemma ascii_upper_fixes_semicolon : upper_fixes_semicolon Py.ascii_upper.
Proof. reflexivity. Qed.

Lemma ascii_upper_stable : upper_stable Py.ascii_upper.
Proof.
  intros s. induction s as [|c s IH]; simpl; [reflexivity |].
  now rewrite ascii_upper_char_stable, IH.
Qed.

Lemma ascii_upper_keeps_words : upper_keeps_words Py.ascii_upper.
Proof.
  intros w [Hs Hne]. split.
  - rewrite <- Hs. clear. induction w as [|c w IH]; simpl; [reflexivity |].
    now rewrite isspace_ascii_upper_char, IH.
  - destruct w; [contradiction | discriminate].
Qed.

Lemma ascii_upper_leaves_no_lower : upper_leaves_no_lower Py.ascii_upper.
Proof.
  intros s. induction s as [|c s IH]; simpl; [reflexivity |].
  now rewrite is_lower_ascii_upper_char, IH.
Qed.

(** ** The string helpers *)

(** C6. [to_upper] is idempotent: for every input string [s],
    [to_upper (to_upper s) = to_upper s].  The case table of [str.upper]
    is a parameter; the proof uses four facts of it: the upper case of a
    text is made character by character, [";"] has no case, a text in
    upper case is its own upper case, and the upper case of a word is a
    word. *)
Theorem to_upper_idempotent (upper : string -> string) (s : string) :
  upper_charwise upper ->
  upper_fixes_semicolon upper ->
  upper_stable upper ->
  upper_keeps_words upper ->
  to_upper upper (to_upper upper s) = to_upper upper s.
Proof.
  intros Happ Hsemi Hstable Hwords_up.
  unfold to_upper at 2 3.
  pose proof (split_ws_words s) as Hwords.
  destruct (Py.split_ws s) as [|w ws] eqn:Hsplit; [reflexivity |].
  remember (w :: ws) as words eqn:Hw.
  assert (Hne : map upper words <> []) by (subst words; discriminate).
  assert (Hup : Forall is_word (map upper words))
    by now apply map_upper_words.
  unfold to_upper.
  rewrite split_ws_join_words by assumption.
  change (upper (Py.join ";" (map upper words))
          = Py.join ";" (map upper words)).
  rewrite upper_join by assumption. rewrite map_map.
  f_equal. apply map_ext. intros a. apply Hstable.
Qed.

(** The case map of ASCII text has the four properties. *)
Lemma to_upper_idempotent_witness :
  to_upper Py.ascii_upper (to_upper Py.ascii_upper "go  team")
  = to_upper Py.ascii_upper "go  team".
Proof.
  exact (to_upper_idempotent Py.ascii_upper "go  team"
           ascii_upper_charwise ascii_upper_fixes_semicolon
           ascii_upper_stable ascii_upper_keeps_words).
Defined.

(** C10. [reverse_words] is idempotent: its output joins the words with
    [";"] and holds no whitespace, so a second application sees one word
    and returns it.  Hence the second application does not undo the first:
    the result keeps the reversed order, and for an input of two or more
    words it differs from the input. *)
Theorem reverse_words_idempotent (s : string) :
  reverse_words (reverse_words s) = reverse_words s
  /\ has_space (reverse_words s) = false
  /\ reverse_words (reverse_words s) = Py.join ";" (rev (Py.split_ws s))
  /\ (2 <= length (Py.split_ws s) -> reverse_words (reverse_words s) <> s).
Proof.
  assert (Hidem : reverse_words (reverse_words s) = reverse_words s).
  { unfold reverse_words at 2 3.
    pose proof (split_ws_words s) as Hwords.
    destruct (Py.split_ws s) as [|w ws] eqn:Hsplit; [reflexivity |].
    remember (w :: ws) as words eqn:Hw.
    assert (Hrev : Forall is_word (rev words)).
    { apply Forall_forall. intros x Hx. apply In_rev in Hx.
      revert x Hx. now apply Forall_forall. }
    assert (Hne : rev words <> []).
    { subst words. simpl. intros H. now apply app_eq_nil in H. }
    unfold reverse_words.
    rewrite split_ws_join_words by assumption. reflexivity. }
  assert (Hfree : has_space (reverse_words s) = false).
  { unfold reverse_words.
    pose proof (split_ws_words s) as Hwords.
    destruct (rev (Py.split_ws s)) as [|w ws] eqn:Hrev; [reflexivity |].
    apply join_words; [| discriminate].
    rewrite <- Hrev. apply Forall_forall. intros x Hx. apply In_rev in Hx.
    revert x Hx. now apply Forall_forall. }
  repeat split.
  - exact Hidem.
  - exact Hfree.
  - rewrite Hidem. reflexivity.
  - intros Hlen Heq. rewrite Hidem in Heq.
    rewrite Heq in Hfree.
    unfold Py.split_ws in Hlen.
    rewrite (split_ws_from_no_space s "" Hfree) in Hlen.
    simpl in Hlen. destruct s; simpl in Hlen; lia.
Qed.

(** The hypothesis of the last part holds of ["a b"]. *)
Lemma reverse_words_idempotent_witness :
  2 <= length (Py.split_ws "a b")
  /\ reverse_words (reverse_words "a b") <> "a b".
Proof.
  assert (H : 2 <= length (Py.split_ws "a b")) by (vm_compute; lia).
  split; [exact H |].
  exact (proj2 (proj2 (proj2 (reverse_words_idempotent "a b"))) H).
Defined.

(** [char not in "aeiouAEIOU"], for a one-character string. *)
Lemma contains_vowels (c : ascii) :
  Py.contains (String c "") "aeiouAEIOU" = is_vowel c.
Proof.
  destruct c as [[|] [|] [|] [|] [|] [|] [|] [|]]; vm_compute; reflexivity.
Qed.

Lemma filter_chars (s : string) :
  filter (fun char => negb (Py.contains char "aeiouAEIOU")) (Py.chars s)
  = map (fun c => String c "") (survivors s).
Proof.
  unfold survivors. induction s as [|c s IH]; [reflexivity |].
  cbn [Py.chars list_ascii_of_string filter].
  rewrite contains_vowels, IH.
  destruct (is_vowel c); reflexivity.
Qed.

Lemma join_single_chars (l : list ascii) :
  Py.join ";" (map (fun c => String c "") l) = semicolon_separated l.
Proof.
  induction l as [|c l IH]; [reflexivity |].
  destruct l as [|c' l']; [reflexivity |].
  change (map (fun c => String c "") (c :: c' :: l'))
    with (String c "" :: map (fun c => String c "") (c' :: l')).
  rewrite join_cons by (simpl; discriminate).
  rewrite IH. reflexivity.
Qed.

(** C7. For every input, [remove_vowels] drops exactly the characters of
    the set a, e, i, o, u, A, E, I, O, U and joins the characters that
    remain (each one, whitespace and punctuation too, in their order) with
    [";"] between them; [remove_vowels "Hello"] is ["H;l;l"]. *)
Theorem remove_vowels_spec (s : string) :
  remove_vowels s = semicolon_separated (survivors s)
  /\ remove_vowels "Hello" = "H;l;l".
Proof.
  split; [| reflexivity].
  unfold remove_vowels. rewrite filter_chars. apply join_single_chars.
Qed.

(** ** The dispatcher *)

(** C8. With fewer than three entries in the argument list (the program
    name and at most one more), the dispatcher returns the empty string,
    looks up and calls nothing, prints nothing and raises nothing. *)
Theorem main_too_few_arguments (upper : string -> string)
    (argv : list string) :
  length argv < 3 -> main upper argv = ([], Returned (Some "")).
Proof.
  intros Hlen. unfold main.
  apply Nat.ltb_lt in Hlen. rewrite Hlen. reflexivity.
Qed.

(** With the program name and a function name only. *)
Lemma main_too_few_arguments_witness :
  length ["frontier_utils.py"; "to_upper"] < 3
  /\ main Py.ascii_upper ["frontier_utils.py"; "to_upper"]
     = ([], Returned (Some "")).
Proof.
  assert (H : length ["frontier_utils.py"; "to_upper"] < 3) by (simpl; lia).
  split; [exact H |].
  exact (main_too_few_arguments Py.ascii_upper
           ["frontier_utils.py"; "to_upper"] H).
Defined.

(** What the namespace holds under a name that is none of the module's
    five functions: nothing, or an object that cannot be called. *)
Lemma lookup_globals_other (name : string) :
  ~ In name exposed -> name <> "main" ->
  lookup globals name = Raised (KeyError name)
  \/ exists obj, lookup globals name = Returned obj /\ callable obj = false.
Proof.
  intros Hexp Hmain. unfold globals. cbn [lookup].
  repeat match goal with
         | |- context [String.eqb ?k name] =>
             destruct (String.eqb_spec k name) as [<-|?]
         end;
    try (right; eexists; split; reflexivity);
    try (left; reflexivity);
    exfalso; try (apply Hmain; reflexivity);
    apply Hexp; unfold exposed; simpl; tauto.
Qed.

Ltac run_io :=
  cbv [io_bind io_lift io_emit io_raise io_ret try_except_KeyError
       call_obj call negb callable app].

(** C3, as the code has it.  With at least three arguments and a second
    argument that is none of the four exposed names and is not ["main"],
    the dispatcher looks the name up and raises a [ValueError], and has
    called and printed nothing: when the namespace has no such name, the
    message is [No function named '<name>' found.]; when the namespace
    binds the name to an object that cannot be called, the message is
    [<name> is not callable].  For ["main"], which the namespace binds to
    the dispatcher itself, the lookup succeeds and the call raises a
    [TypeError], and nothing is printed either. *)
Theorem main_unknown_function (upper : string -> string)
    (argv : list string) (name : string) :
  3 <= length argv ->
  nth_error argv 1 = Some name ->
  ~ In name exposed ->
  (name <> "main" ->
   (lookup globals name = Raised (KeyError name)
    /\ main upper argv
       = ([Lookup name],
          Raised (ValueError ("No function named '" ++ name ++ "' found."))))
   \/ (exists obj,
          lookup globals name = Returned obj
          /\ callable obj = false
          /\ main upper argv
             = ([Lookup name],
                Raised (ValueError (name ++ " is not callable")))))
  /\ (name = "main" ->
      main upper argv =
      ([Lookup "main"; Call F_main (Py.join " " (skipn 2 argv))],
       Raised
         (TypeError "main() takes 0 positional arguments but 1 was given"))).
Proof.
  intros Hlen Hname Hexp.
  assert (Hge : (length argv <? 3)%nat = false) by (apply Nat.ltb_ge; lia).
  unfold main. rewrite Hge. unfold Py.getitem. rewrite Hname.
  split.
  - intros Hmain.
    destruct (lookup_globals_other name Hexp Hmain) as [Hk | [obj [Hobj Hc]]].
    + left. split; [exact Hk |].
      run_io. rewrite Hk. reflexivity.
    + right. exists obj. split; [exact Hobj |]. split; [exact Hc |].
      run_io. rewrite Hobj. destruct obj; [discriminate | |]; reflexivity.
  - intros ->. run_io.
    change (lookup globals "main") with (Returned (Function F_main)).
    reflexivity.
Qed.

(** A name that the namespace binds to a module: [sys]. *)
Lemma main_unknown_function_witness :
  (lookup globals "sys" = Raised (KeyError "sys")
   /\ main Py.ascii_upper ["frontier_utils.py"; "sys"; "a"]
      = ([Lookup "sys"],
         Raised (ValueError "No function named 'sys' found.")))
  \/ (exists obj,
         lookup globals "sys" = Returned obj
         /\ callable obj = false
         /\ main Py.ascii_upper ["frontier_utils.py"; "sys"; "a"]
            = ([Lookup "sys"], Raised (ValueError "sys is not callable"))).
Proof.
  refine (proj1 (main_unknown_function Py.ascii_upper
                   ["frontier_utils.py"; "sys"; "a"] "sys"
                   _ _ _) _).
  - simpl; lia.
  - reflexivity.
  - unfold exposed. simpl. intros H.
    repeat (destruct H as [H | H]; [discriminate |]). exact H.
  - discriminate.
Defined.

(** C3 as stated fails at the name ["main"]: it is none of the four exposed
    names, the lookup finds a callable, and the error comes from the call,
    a [TypeError] and no [ValueError]. *)
Lemma main_unknown_function_counterexample :
  ~ In "main" exposed
  /\ 3 <= length ["frontier_utils.py"; "main"; "a"; "b"]
  /\ (forall upper,
        main upper ["frontier_utils.py"; "main"; "a"; "b"]
        = ([Lookup "main"; Call F_main "a b"],
           Raised
             (TypeError
                "main() takes 0 positional arguments but 1 was given")))
  /\ forall upper msg,
       snd (main upper ["frontier_utils.py"; "main"; "a"; "b"])
       <> Raised (ValueError msg).
Proof.
  split; [| split; [| split]].
  - unfold exposed. simpl. intros H.
    repeat (destruct H as [H | H]; [discriminate |]). exact H.
  - simpl; lia.
  - intros upper. reflexivity.
  - intros upper msg. cbn. discriminate.
Qed.

(** ** The parser *)

(** The loop, one pass at a time. *)
Lemma get_ctests_loop_eq (lines : list string) (index : nat)
    (ctests : list string) :
  get_ctests_loop lines index ctests =
  if (index <? length lines)%nat then
    match get_ctests_body lines index ctests with
    | Returned (index', ctests') => get_ctests_loop lines index' ctests'
    | Raised e => Raised e
    end
  else Returned ctests.
Proof.
  set (rhs := if (index <? length lines)%nat then _ else _).
  simp get_ctests_loop.
  destruct (inspect (index <? length lines)%nat) as [[|] Hlt];
    simp get_ctests_loop.
  - destruct (inspect (get_ctests_body lines index ctests))
      as [[[index' ctests']|e] Hbody];
      simp get_ctests_loop; subst rhs; rewrite Hlt, Hbody;
      simp get_ctests_loop; reflexivity.
  - subst rhs. rewrite Hlt. reflexivity.
Qed.

Lemma group_at_unique (lines : list string) (i : nat) (r r' : string) :
  group_at lines i r -> group_at lines i r' -> r = r'.
Proof.
  intros [l1 l2 l3 Exe Test H1 H2 H3 _ _ _ HExe HTest]
         [l1' l2' l3' Exe' Test' H1' H2' H3' _ _ _ HExe' HTest'].
  rewrite H1 in H1'. rewrite H2 in H2'. rewrite H3 in H3'.
  inversion H1'; inversion H2'; inversion H3'; subst.
  rewrite HExe in HExe'. rewrite HTest in HTest'.
  inversion HExe'; inversion HTest'; subst. reflexivity.
Qed.

(** What one pass does when it returns to the loop condition: nothing but
    move the cursor over one, two or three lines, or, when the three lines
    at the cursor are a group, append the record of the group and move the
    cursor over the three. *)
Lemma get_ctests_body_cases (lines : list string) (index : nat)
    (ctests : list string) (index' : nat) (ctests' : list string) :
  get_ctests_body lines index ctests = Returned (index', ctests') ->
  (ctests' = ctests /\ index < index' <= index + 3
   /\ ~ exists r, group_at lines index r)
  \/ (exists r, group_at lines index r
                /\ ctests' = ctests ++ [r] /\ index' = index + 3).
Proof.
  unfold get_ctests_body, bind, Py.getitem. cbv zeta.
  replace (index + 1 + 1) with (index + 2) by lia.
  replace (index + 2 + 1) with (index + 3) by lia.
  destruct (nth_error lines index) as [l1|] eqn:E1; [| discriminate].
  destruct (Py.find l1 CmdStr <? 0)%Z eqn:P1.
  { intros H; inversion H; subst. left. repeat split; try lia.
    intros [r [l1' ? ? ? ? F1 ? ? ? ? ?]].
    rewrite E1 in F1. inversion F1; subst. apply Z.ltb_lt in P1. lia. }
  destruct (Py.last_item (Py.split_ws (Py.slice_from l1 _)))
    as [Exe|] eqn:L1; [| discriminate].
  destruct (nth_error lines (index + 1)) as [l2|] eqn:E2; [| discriminate].
  destruct (Py.find l2 DirStr <? 0)%Z eqn:P2.
  { intros H; inversion H; subst. left. repeat split; try lia.
    intros [r [? l2' ? ? ? ? F2 ? ? ? ? ?]].
    rewrite E2 in F2. inversion F2; subst. apply Z.ltb_lt in P2. lia. }
  destruct (nth_error lines (index + 2)) as [l3|] eqn:E3; [| discriminate].
  destruct (Py.find l3 TestStr <? 0)%Z eqn:P3.
  { intros H; inversion H; subst. left. repeat split; try lia.
    intros [r [? ? l3' ? ? ? ? F3 ? ? ? ?]].
    rewrite E3 in F3. inversion F3; subst. apply Z.ltb_lt in P3. lia. }
  destruct (Py.last_item (Py.split_ws l3)) as [Test|] eqn:L3; [| discriminate].
  intros H; inversion H; subst. right.
  eexists. split; [| split; reflexivity].
  apply Z.ltb_ge in P1, P2, P3.
  exact (group_at_intro lines index l1 l2 l3 Exe Test E1 E2 E3 P1 P2 P3 L1 L3).
Qed.

Lemma emitted_from_weaken (lines : list string) (lo lo' : nat)
    (idxs : list nat) (rs : list string) :
  lo <= lo' -> emitted_from lines lo' idxs rs -> emitted_from lines lo idxs rs.
Proof.
  intros Hle H. destruct H as [lo' | lo' i r idxs rs Hi Hg Hrest].
  - constructor.
  - apply emitted_cons; [lia | assumption | assumption].
Qed.

(** The invariant of the loop: what it returns is what it had, followed by
    the records of groups found from the cursor on. *)
Lemma get_ctests_loop_emitted (lines : list string) :
  forall (n index : nat) (ctests rs : list string),
    length lines - index <= n ->
    get_ctests_loop lines index ctests = Returned rs ->
    exists idxs new,
      rs = ctests ++ new /\ emitted_from lines index idxs new.
Proof.
  induction n as [|n IH]; intros index ctests rs Hn;
    rewrite get_ctests_loop_eq;
    destruct (index <? length lines)%nat eqn:Hlt;
    try (apply Nat.ltb_lt in Hlt; lia);
    try (intros H; inversion H; subst; exists [], [];
         split; [now rewrite app_nil_r | constructor]).
  destruct (get_ctests_body lines index ctests)
    as [[index' ctests']|e] eqn:Hbody; [| discriminate].
  intros Hloop.
  apply Nat.ltb_lt in Hlt.
  destruct (get_ctests_body_cases _ _ _ _ _ Hbody)
    as [[-> [Hadv _]] | [r [Hg [-> ->]]]].
  - destruct (IH index' ctests rs ltac:(lia) Hloop) as [idxs [new [-> Hem]]].
    exists idxs, new. split; [reflexivity |].
    apply (emitted_from_weaken lines index index'); [lia | assumption].
  - destruct (IH (index + 3) (ctests ++ [r]) rs ltac:(lia) Hloop)
      as [idxs [new [-> Hem]]].
    exists (index :: idxs), (r :: new). split.
    + rewrite <- app_assoc. reflexivity.
    + apply emitted_cons; [lia | assumption | assumption].
Qed.

(** X19. Whatever [get_ctests] returns is the [";"]-joined list of the
    records of groups of three consecutive lines, each a command line, a
    directory line and a test-name line in that order, one record per group
    and in the order of the groups in the input; and a pass of the loop
    whose three lines at the cursor are no such group emits no record and
    moves the cursor forward, over three lines at most. *)
Theorem get_ctests_records_are_groups (ctest_output out : string) :
  get_ctests ctest_output = Returned out ->
  let lines := Py.split ctest_output "_NEWLINE_" in
  (exists idxs rs,
      out = Py.join ";" rs /\ emitted_from lines 0 idxs rs)
  /\ (forall index ctests index' ctests',
         get_ctests_body lines index ctests = Returned (index', ctests') ->
         ~ (exists r, group_at lines index r) ->
         ctests' = ctests /\ index < index' <= index + 3).
Proof.
  intros Hret lines. split.
  - unfold get_ctests, bind in Hret. fold lines in Hret.
    destruct (get_ctests_loop lines 0 []) as [rs|e] eqn:Hloop;
      [| discriminate].
    inversion Hret; subst.
    destruct (get_ctests_loop_emitted lines (length lines) 0 [] rs
                ltac:(lia) Hloop) as [idxs [new [-> Hem]]].
    exists idxs, new. split; [reflexivity | exact Hem].
  - intros index ctests index' ctests' Hbody Hnone.
    destruct (get_ctests_body_cases _ _ _ _ _ Hbody)
      as [[-> [Hadv _]] | [r [Hg _]]].
    + split; [reflexivity | exact Hadv].
    + exfalso. apply Hnone. exists r. exact Hg.
Qed.

(** A transcript of one group, as CTest prints it. *)
Lemma get_ctests_records_are_groups_witness :
  exists idxs rs,
    "/usr/bin/foo --x,--x, /tmp,mytest" = Py.join ";" rs
    /\ emitted_from
         (Py.split
            "1: Test command: /usr/bin/foo --x_NEWLINE_1: Working Directory: /tmp_NEWLINE_  Test #1: mytest_NEWLINE_"
            "_NEWLINE_")
         0 idxs rs.
Proof.
  refine (proj1 (get_ctests_records_are_groups _ _ _)).
  vm_compute. reflexivity.
Defined.

(** C5 fails on the code, by the defect of C1.  The transcript holds one
    complete group, then a command line and nothing more.  The lines at
    the cursor 3 are no group, and the pass there does not skip forward:
    it raises [IndexError], so [get_ctests] returns nothing, not even the
    record of the complete group. *)
Theorem get_ctests_deviation_raises :
  let lines :=
    ["1: Test command: /bin/a"; "1: Working Directory: /w"; "  Test #1: t1";
     "2: Test command: /bin/b"] in
  get_ctests_body lines 0 [] = Returned (3, ["/bin/a,/bin/a, /w,t1"])
  /\ ~ (exists r, group_at lines 3 r)
  /\ get_ctests_body lines 3 ["/bin/a,/bin/a, /w,t1"] = Raised IndexError
  /\ get_ctests_loop lines 0 [] = Raised IndexError
  /\ get_ctests
       "1: Test command: /bin/a_NEWLINE_1: Working Directory: /w_NEWLINE_  Test #1: t1_NEWLINE_2: Test command: /bin/b"
     = Raised IndexError.
Proof.
  intros lines. repeat split; try (vm_compute; reflexivity).
  intros [r [l1 l2 l3 Exe Test _ H2 _ _ _ _ _ _]]. discriminate.
Qed.

Lemma last_item_nonempty {A : Type} (l : list A) :
  l <> [] -> exists a, Py.last_item l = Returned a.
Proof.
  intros Hne. unfold Py.last_item.
  destruct (rev l) as [|a l'] eqn:Hrev.
  - exfalso. apply Hne. apply (f_equal (@rev A)) in Hrev.
    now rewrite rev_involutive in Hrev.
  - exists a. reflexivity.
Qed.

(** C4, as the code has it.  When the cursor is on a command line (with a
    command that is not blank) and the next line lacks the directory
    marker, the pass emits no record and leaves the cursor two lines
    further: past the line that failed as a directory line, which is not
    examined as a command line, and on the line after it (the would-be
    test-name line), which is the next one examined as a command line. *)
Theorem get_ctests_missing_directory (lines : list string) (index : nat)
    (ctests : list string) (c d : string) :
  nth_error lines index = Some c ->
  nth_error lines (index + 1) = Some d ->
  (0 <= Py.find c CmdStr)%Z ->
  Py.split_ws (text_after c CmdStr) <> [] ->
  (Py.find d DirStr < 0)%Z ->
  get_ctests_body lines index ctests = Returned (index + 2, ctests)
  /\ get_ctests_loop lines index ctests
     = get_ctests_loop lines (index + 2) ctests.
Proof.
  intros Hc Hd Hcmd Hexe Hdir.
  assert (Hbody : get_ctests_body lines index ctests
                  = Returned (index + 2, ctests)).
  { unfold get_ctests_body, bind, Py.getitem. cbv zeta.
    rewrite Hc.
    apply Z.ltb_ge in Hcmd. rewrite Hcmd.
    destruct (last_item_nonempty _ Hexe) as [Exe HExe].
    unfold text_after in HExe. rewrite HExe.
    rewrite Hd.
    apply Z.ltb_lt in Hdir. rewrite Hdir.
    f_equal. f_equal. lia. }
  split; [exact Hbody |].
  rewrite (get_ctests_loop_eq lines index), Hbody.
  assert (Hlt : (index <? length lines)%nat = true).
  { apply Nat.ltb_lt. apply nth_error_Some. rewrite Hc. discriminate. }
  rewrite Hlt. reflexivity.
Qed.

(** A command line, a line of noise, then a full group. *)
Lemma get_ctests_missing_directory_witness :
  let lines :=
    ["1: Test command: /bin/a"; "noise";
     "2: Test command: /bin/b"; "2: Working Directory: /w"; "Test #2: t2"] in
  get_ctests_body lines 0 [] = Returned (2, [])
  /\ get_ctests_loop lines 0 [] = get_ctests_loop lines 2 [].
Proof.
  intros lines.
  refine (get_ctests_missing_directory lines 0 []
            "1: Test command: /bin/a" "noise" _ _ _ _ _).
  - reflexivity.
  - reflexivity.
  - vm_compute. discriminate.
  - vm_compute. discriminate.
  - vm_compute. reflexivity.
Defined.

(** C4 as stated fails: after a command line and a line without the
    directory marker, the scan does not resume past the would-be test-name
    line (cursor 3) but on it (cursor 2); here that line is a command line
    and yields a record. *)
Lemma get_ctests_missing_directory_counterexample :
  let lines :=
    ["1: Test command: /bin/a"; "noise";
     "2: Test command: /bin/b"; "2: Working Directory: /w"; "Test #2: t2"] in
  (0 <= Py.find (nth 0 lines "") CmdStr)%Z
  /\ (Py.find (nth 1 lines "") DirStr < 0)%Z
  /\ get_ctests_body lines 0 [] <> Returned (3, [])
  /\ get_ctests_loop lines 0 [] = Returned ["/bin/b,/bin/b, /w,t2"]
  /\ get_ctests_loop lines 3 [] = Returned []
  /\ get_ctests
       "1: Test command: /bin/a_NEWLINE_noise_NEWLINE_2: Test command: /bin/b_NEWLINE_2: Working Directory: /w_NEWLINE_Test #2: t2"
     = Returned "/bin/b,/bin/b, /w,t2".
Proof.
  intros lines. repeat split; vm_compute; try reflexivity; discriminate.
Qed.

Lemma text_after_directory (path : string) :
  text_after (": Working Directory: " ++ path) DirStr = (" " ++ path)%string.
Proof. reflexivity. Qed.

Lemma emitted_from_nth (lines : list string) (lo : nat) (idxs : list nat)
    (rs : list string) :
  emitted_from lines lo idxs rs ->
  forall k i r,
    nth_error idxs k = Some i -> nth_error rs k = Some r ->
    group_at lines i r.
Proof.
  induction 1 as [lo | lo i r idxs rs Hi Hg Hrest IH]; intros k j r' Hj Hr.
  - destruct k; discriminate.
  - destruct k as [|k]; simpl in Hj, Hr.
    + inversion Hj; inversion Hr; subst. exact Hg.
    + exact (IH k j r' Hj Hr).
Qed.

(** C9. In what [get_ctests] returns, the record of a group whose
    directory line is [": Working Directory: "] followed by a path (one
    space between the marker's last colon and the path) has, as its
    working-directory field, all that follows the marker
    [": Working Directory:"]: the space, then the path.  The field begins
    with a space. *)
Theorem working_directory_keeps_space (ctest_output out : string) :
  get_ctests ctest_output = Returned out ->
  let lines := Py.split ctest_output "_NEWLINE_" in
  exists idxs rs,
    out = Py.join ";" rs
    /\ emitted_from lines 0 idxs rs
    /\ forall k i r path,
         nth_error idxs k = Some i ->
         nth_error rs k = Some r ->
         nth_error lines (i + 1)
         = Some (": Working Directory: " ++ path)%string ->
         exists c t Exe Test,
           nth_error lines i = Some c
           /\ nth_error lines (i + 2) = Some t
           /\ Py.last_item (Py.split_ws (text_after c CmdStr)) = Returned Exe
           /\ Py.last_item (Py.split_ws t) = Returned Test
           /\ r = (text_after c CmdStr ++ "," ++ Exe ++ ","
                     ++ (" " ++ path) ++ "," ++ Test)%string.
Proof.
  intros Hret lines.
  unfold get_ctests, bind in Hret. fold lines in Hret.
  destruct (get_ctests_loop lines 0 []) as [rs|e] eqn:Hloop; [| discriminate].
  inversion Hret; subst.
  destruct (get_ctests_loop_emitted lines (length lines) 0 [] rs
              ltac:(lia) Hloop) as [idxs [new [-> Hem]]].
  exists idxs, new. split; [reflexivity |]. split; [exact Hem |].
  intros k i r path Hi Hr Hdir.
  destruct (emitted_from_nth _ _ _ _ Hem k i r Hi Hr)
    as [l1 l2 l3 Exe Test H1 H2 H3 _ _ _ HExe HTest].
  assert (Hl2 : l2 = (": Working Directory: " ++ path)%string) by congruence.
  subst l2. exists l1, l3, Exe, Test.
  rewrite text_after_directory. repeat split; assumption.
Qed.

(** The transcript of the example, with directory line
    [": Working Directory: /tmp"]: the field is [" /tmp"]. *)
Lemma working_directory_keeps_space_witness :
  exists idxs rs,
    "/usr/bin/foo --x,--x, /tmp,mytest" = Py.join ";" rs
    /\ emitted_from
         [": Test command: /usr/bin/foo --x"; ": Working Directory: /tmp";
          "Test #1: mytest"; ""] 0 idxs rs
    /\ forall k i r path,
         nth_error idxs k = Some i ->
         nth_error rs k = Some r ->
         nth_error
           [": Test command: /usr/bin/foo --x"; ": Working Directory: /tmp";
            "Test #1: mytest"; ""] (i + 1)
         = Some (": Working Directory: " ++ path)%string ->
         exists c t Exe Test,
           nth_error
             [": Test command: /usr/bin/foo --x"; ": Working Directory: /tmp";
              "Test #1: mytest"; ""] i = Some c
           /\ nth_error
                [": Test command: /usr/bin/foo --x";
                 ": Working Directory: /tmp"; "Test #1: mytest"; ""] (i + 2)
              = Some t
           /\ Py.last_item (Py.split_ws (text_after c CmdStr)) = Returned Exe
           /\ Py.last_item (Py.split_ws t) = Returned Test
           /\ r = (text_after c CmdStr ++ "," ++ Exe ++ ","
                     ++ (" " ++ path) ++ "," ++ Test)%string.
Proof.
  refine (working_directory_keeps_space
            ": Test command: /usr/bin/foo --x_NEWLINE_: Working Directory: /tmp_NEWLINE_Test #1: mytest_NEWLINE_"
            "/usr/bin/foo --x,--x, /tmp,mytest" _).
  vm_compute. reflexivity.
Defined.

(** C2, as the code has it: on the well-formed transcript of the example,
    [get_ctests] returns the command, its last word, the working directory
    with the space that follows the marker, and the test name. *)
Theorem get_ctests_example :
  get_ctests
    ": Test command: /usr/bin/foo --x_NEWLINE_: Working Directory: /tmp_NEWLINE_Test #1: mytest_NEWLINE_"
  = Returned "/usr/bin/foo --x,--x, /tmp,mytest".
Proof. vm_compute. reflexivity. Qed.

(** C2 as stated fails: the result is not the string without the space. *)
Lemma get_ctests_example_counterexample :
  get_ctests
    ": Test command: /usr/bin/foo --x_NEWLINE_: Working Directory: /tmp_NEWLINE_Test #1: mytest_NEWLINE_"
  <> Returned "/usr/bin/foo --x,--x,/tmp,mytest".
Proof. vm_compute. discriminate. Qed.

(** The only exception that leaves [get_ctests] is [IndexError]. *)
Lemma get_ctests_body_raises (lines : list string) (index : nat)
    (ctests : list string) (e : exn) :
  get_ctests_body lines index ctests = Raised e -> e = IndexError.
Proof.
  unfold get_ctests_body, bind, Py.getitem, Py.last_item. cbv zeta.
  repeat match goal with
         | |- context [nth_error ?l ?i] => destruct (nth_error l i)
         | |- context [rev ?l] => destruct (rev l)
         | |- context [(?z <? 0)%Z] => destruct (z <? 0)%Z
         end; intros H; inversion H; reflexivity.
Qed.

Lemma get_ctests_loop_raises (lines : list string) :
  forall (n index : nat) (ctests : list string) (e : exn),
    length lines - index <= n ->
    get_ctests_loop lines index ctests = Raised e -> e = IndexError.
Proof.
  induction n as [|n IH]; intros index ctests e Hn;
    rewrite get_ctests_loop_eq;
    destruct (index <? length lines)%nat eqn:Hlt;
    try (apply Nat.ltb_lt in Hlt; lia); try discriminate.
  apply Nat.ltb_lt in Hlt.
  destruct (get_ctests_body lines index ctests)
    as [[index' ctests']|e'] eqn:Hbody.
  - destruct (get_ctests_body_cases _ _ _ _ _ Hbody)
      as [[_ [Hadv _]] | [_ [_ [_ ->]]]];
      apply IH; lia.
  - intros H. inversion H; subst. exact (get_ctests_body_raises _ _ _ _ Hbody).
Qed.

(** A command line that is the last line of the transcript makes the loop
    raise, whatever came before the cursor. *)
Lemma get_ctests_loop_last_command_line (lines : list string) (index : nat)
    (ctests : list string) (c : string) :
  nth_error lines index = Some c ->
  length lines = index + 1 ->
  (0 <= Py.find c CmdStr)%Z ->
  get_ctests_loop lines index ctests = Raised IndexError.
Proof.
  intros Hc Hlen Hcmd.
  rewrite get_ctests_loop_eq.
  assert (Hlt : (index <? length lines)%nat = true)
    by (apply Nat.ltb_lt; lia).
  rewrite Hlt.
  unfold get_ctests_body, bind, Py.getitem. cbv zeta.
  rewrite Hc. apply Z.ltb_ge in Hcmd. rewrite Hcmd.
  destruct (Py.last_item _) as [Exe|e] eqn:HExe.
  - assert (Hnone : nth_error lines (index + 1) = None)
      by (apply nth_error_None; lia).
    rewrite Hnone. reflexivity.
  - unfold Py.last_item in HExe.
    destruct (rev _); inversion HExe; reflexivity.
Qed.

(** C1 fails on the code.  [get_ctests] raises [IndexError] on a transcript
    that ends on a command line, on one that ends on the directory line of
    a group, and on a command line whose command is blank. *)
Theorem get_ctests_raises :
  get_ctests ": Test command: /usr/bin/foo --x" = Raised IndexError
  /\ get_ctests
       ": Test command: /usr/bin/foo --x_NEWLINE_: Working Directory: /tmp"
     = Raised IndexError
  /\ get_ctests ": Test command: _NEWLINE_: Working Directory: /tmp_NEWLINE_Test #1: mytest_NEWLINE_"
     = Raised IndexError.
Proof. repeat split; vm_compute; reflexivity. Qed.

(* ===================================================================== *)
(** * Further properties of the code *)
(* ===================================================================== *)

(** ** Words and blanks *)

Lemma split_ws_from_nil (s cur : string) :
  Py.split_ws_from cur s = [] <-> cur = "" /\ all_space s = true.
Proof.
  revert cur. induction s as [|c s IH]; intros cur; simpl.
  - destruct cur; split; intros H; try discriminate; auto.
    destruct H; discriminate.
  - destruct (Py.isspace c) eqn:Hc; simpl.
    + destruct cur.
      * rewrite IH. tauto.
      * split; [discriminate | intros [H _]; discriminate].
    + rewrite IH. split; [| intros [_ H]; discriminate].
      intros [H _]. apply append_eq_empty in H. destruct H; discriminate.
Qed.

Lemma split_ws_nil (s : string) :
  Py.split_ws s = [] <-> all_space s = true.
Proof. unfold Py.split_ws. rewrite split_ws_from_nil. tauto. Qed.

(** Whitespace between two texts separates their words. *)
Lemma split_ws_from_app_space (a b cur : string) (c : ascii) :
  Py.isspace c = true ->
  Py.split_ws_from cur (a ++ String c b)
  = Py.split_ws_from cur a ++ Py.split_ws b.
Proof.
  intros Hc. revert cur. induction a as [|x a IH]; intros cur; simpl.
  - rewrite Hc. destruct cur; reflexivity.
  - destruct (Py.isspace x).
    + destruct cur; rewrite IH; reflexivity.
    + apply IH.
Qed.

(** [" ".join(args).split()]: the words of the arguments, in order. *)
Lemma split_ws_join_space (args : list string) :
  Py.split_ws (Py.join " " args) = flat_map Py.split_ws args.
Proof.
  induction args as [|a args IH]; [reflexivity |].
  destruct args as [|b args].
  - simpl. now rewrite app_nil_r.
  - rewrite join_cons by discriminate.
    change (" " ++ Py.join " " (b :: args))%string
      with (String " " (Py.join " " (b :: args))).
    unfold Py.split_ws at 1.
    rewrite split_ws_from_app_space by reflexivity.
    rewrite IH. reflexivity.
Qed.

(** X1. Given as separate arguments or packed in fewer arguments with
    whitespace between, the same words give the same result: on the joined
    argument string of the dispatcher, [reverse_words] and [to_upper] see
    the words of all the arguments, in order. *)
Theorem helpers_on_joined_arguments (upper : string -> string)
    (args : list string) :
  reverse_words (Py.join " " args)
  = Py.join ";" (rev (flat_map Py.split_ws args))
  /\ to_upper upper (Py.join " " args)
     = Py.join ";" (map upper (flat_map Py.split_ws args)).
Proof.
  unfold reverse_words, to_upper. rewrite split_ws_join_space. split; reflexivity.
Qed.

(** X2. On an input without whitespace, [reverse_words] returns the input
    and [to_upper] returns it in upper case (and the empty string on the
    empty input). *)
Theorem helpers_on_one_word (upper : string -> string) (s : string) :
  has_space s = false ->
  reverse_words s = s
  /\ to_upper upper s
     = match s with EmptyString => EmptyString | _ => upper s end.
Proof.
  intros Hs. unfold reverse_words, to_upper, Py.split_ws.
  rewrite (split_ws_from_no_space s "" Hs). simpl.
  destruct s; split; reflexivity.
Qed.

Lemma helpers_on_one_word_witness :
  has_space "a;b" = false
  /\ reverse_words "a;b" = "a;b"
  /\ to_upper Py.ascii_upper "a;b" = Py.ascii_upper "a;b".
Proof.
  assert (H : has_space "a;b" = false) by reflexivity.
  split; [exact H | exact (helpers_on_one_word Py.ascii_upper "a;b" H)].
Defined.

(** X3. [reverse_words] and [to_upper] return the empty string exactly on
    the inputs that hold nothing but whitespace (the empty input too); for
    [to_upper] this uses that the upper case of a word is a word. *)
Theorem helpers_empty_iff_blank (upper : string -> string) (s : string) :
  (reverse_words s = "" <-> all_space s = true)
  /\ (upper_keeps_words upper ->
      (to_upper upper s = "" <-> all_space s = true)).
Proof.
  rewrite <- split_ws_nil.
  pose proof (split_ws_words s) as Hwords.
  unfold reverse_words, to_upper.
  destruct (Py.split_ws s) as [|w ws] eqn:Hsplit.
  - split; [| intros _]; split; reflexivity.
  - remember (w :: ws) as words eqn:Hw.
    assert (Hne : words <> []) by (subst; discriminate).
    split; [| intros Hkeeps];
      (split; [| intros H; contradiction]); intros H; exfalso.
    + assert (Hrev : Forall is_word (rev words)).
      { apply Forall_forall. intros x Hx. apply In_rev in Hx.
        revert x Hx. now apply Forall_forall. }
      assert (Hrne : rev words <> []).
      { intros E. apply Hne. apply (f_equal (@rev string)) in E.
        now rewrite rev_involutive in E. }
      destruct (join_words _ Hrev Hrne) as [_ Hj]. exact (Hj H).
    + assert (Hup : Forall is_word (map upper words))
        by now apply map_upper_words.
      assert (Hune : map upper words <> [])
        by (subst; discriminate).
      destruct (join_words _ Hup Hune) as [_ Hj]. exact (Hj H).
Qed.

Lemma helpers_empty_iff_blank_witness :
  to_upper Py.ascii_upper "   " = "" <-> all_space "   " = true.
Proof.
  exact (proj2 (helpers_empty_iff_blank Py.ascii_upper "   ")
           ascii_upper_keeps_words).
Defined.

(** ** What the helpers' outputs never hold *)

Lemma has_lower_append (a b : string) :
  has_lower (a ++ b) = has_lower a || has_lower b.
Proof.
  induction a as [|c a IH]; simpl; [reflexivity |].
  rewrite IH. apply orb_assoc.
Qed.

Lemma has_lower_join (l : list string) :
  Forall (fun w => has_lower w = false) l ->
  has_lower (Py.join ";" l) = false.
Proof.
  induction 1 as [|w l Hw Hl IH]; [reflexivity |].
  destruct l as [|w' l']; [exact Hw |].
  rewrite join_cons by discriminate.
  rewrite !has_lower_append, Hw, IH. reflexivity.
Qed.

(** X4. The output of [to_upper] holds no whitespace, given that the
    upper case of a word is a word; and it holds none of the letters a to
    z, given that upper case leaves none. *)
Theorem to_upper_output (upper : string -> string) (s : string) :
  (upper_keeps_words upper -> has_space (to_upper upper s) = false)
  /\ (upper_leaves_no_lower upper -> has_lower (to_upper upper s) = false).
Proof.
  unfold to_upper. split.
  - intros Hkeeps.
    pose proof (map_upper_words upper _ Hkeeps (split_ws_words s)) as Hup.
    destruct (map upper (Py.split_ws s)) as [|w ws] eqn:E; [reflexivity |].
    apply join_words; [exact Hup | discriminate].
  - intros Hlow. apply has_lower_join. apply Forall_forall. intros w Hw.
    apply in_map_iff in Hw. destruct Hw as [x [<- _]].
    apply Hlow.
Qed.

Lemma to_upper_output_witness :
  has_space (to_upper Py.ascii_upper "go  team now") = false
  /\ has_lower (to_upper Py.ascii_upper "go  team now") = false.
Proof.
  split.
  - exact (proj1 (to_upper_output Py.ascii_upper "go  team now")
             ascii_upper_keeps_words).
  - exact (proj2 (to_upper_output Py.ascii_upper "go  team now")
             ascii_upper_leaves_no_lower).
Defined.

Lemma semicolon_separated_no_vowel (l : list ascii) :
  Forall (fun c => is_vowel c = false) l ->
  has_vowel (semicolon_separated l) = false.
Proof.
  induction 1 as [|c l Hc Hl IH]; [reflexivity |].
  destruct l as [|c' l'].
  - simpl. now rewrite Hc.
  - change (semicolon_separated (c :: c' :: l'))
      with (String c (String ";" (semicolon_separated (c' :: l')))).
    cbn [has_vowel]. rewrite Hc, IH. reflexivity.
Qed.

Lemma semicolon_separated_length (l : list ascii) :
  String.length (semicolon_separated l) = 2 * length l - 1.
Proof.
  induction l as [|c l IH]; [reflexivity |].
  destruct l as [|c' l']; [reflexivity |].
  change (semicolon_separated (c :: c' :: l'))
    with (String c (String ";" (semicolon_separated (c' :: l')))).
  cbn [String.length]. rewrite IH. simpl length. lia.
Qed.

Lemma remove_vowels_survivors (s : string) :
  remove_vowels s = semicolon_separated (survivors s).
Proof.
  unfold remove_vowels. rewrite filter_chars. apply join_single_chars.
Qed.

(** X5. No vowel is left in the output of [remove_vowels], and the output
    has one [";"] less than twice the number of characters of the input
    that are no vowels (it is empty when there is none). *)
Theorem remove_vowels_output (s : string) :
  has_vowel (remove_vowels s) = false
  /\ String.length (remove_vowels s) = 2 * length (survivors s) - 1.
Proof.
  rewrite remove_vowels_survivors. split.
  - apply semicolon_separated_no_vowel. unfold survivors.
    apply Forall_forall. intros c Hc. apply filter_In in Hc.
    destruct Hc as [_ Hc]. now apply negb_true_iff in Hc.
  - apply semicolon_separated_length.
Qed.

(** ** The dispatcher, on every argument list *)

(** With three arguments or more, what [main] does is decided by what the
    namespace holds under the name. *)
Lemma main_run (upper : string -> string) (argv : list string)
    (name : string) :
  3 <= length argv ->
  nth_error argv 1 = Some name ->
  main upper argv =
  let arg := Py.join " " (skipn 2 argv) in
  match lookup globals name with
  | Returned (Function f) =>
      match call_result upper f arg with
      | Returned out =>
          ([Lookup name; Call f arg; Print out], Returned None)
      | Raised e => ([Lookup name; Call f arg], Raised e)
      end
  | Returned _ =>
      ([Lookup name], Raised (ValueError (name ++ " is not callable")))
  | Raised (KeyError _) =>
      ([Lookup name],
       Raised (ValueError ("No function named '" ++ name ++ "' found.")))
  | Raised e => ([Lookup name], Raised e)
  end.
Proof.
  intros Hlen Hname.
  assert (Hge : (length argv <? 3)%nat = false) by (apply Nat.ltb_ge; lia).
  unfold main. rewrite Hge. unfold Py.getitem. rewrite Hname.
  unfold call_result. run_io. cbv zeta.
  destruct (lookup globals name) as [[f | m | a] | [ | k | msg | msg]];
    try reflexivity.
  destruct f; try reflexivity.
  unfold snd. destruct (get_ctests _); reflexivity.
Qed.

Lemma lookup_raises_KeyError (d : list (string * pyobj)) (key : string)
    (e : exn) :
  lookup d key = Raised e -> e = KeyError key.
Proof.
  induction d as [|[k v] d IH]; simpl.
  - intros H. now inversion H.
  - destruct (String.eqb k key); [discriminate | exact IH].
Qed.

(** X6. Whatever its arguments, the dispatcher does one of four things:
    nothing (it returns the empty string); one lookup that ends in a
    [ValueError]; one lookup, then one call that raises; one lookup, one
    call, then one print of what the call returned.  So it prints at most
    once, as its last action, and never when it raises. *)
Theorem main_cases (upper : string -> string) (argv : list string) :
  main upper argv = ([], Returned (Some ""))
  \/ (exists name msg,
         main upper argv = ([Lookup name], Raised (ValueError msg)))
  \/ (exists name f arg e,
         call_result upper f arg = Raised e
         /\ main upper argv = ([Lookup name; Call f arg], Raised e))
  \/ (exists name f arg out,
         call_result upper f arg = Returned out
         /\ main upper argv
            = ([Lookup name; Call f arg; Print out], Returned None)).
Proof.
  destruct (Nat.lt_ge_cases (length argv) 3) as [Hlt | Hge].
  - left. unfold main. apply Nat.ltb_lt in Hlt. now rewrite Hlt.
  - right.
    destruct (nth_error argv 1) as [name|] eqn:Hname.
    2: { apply nth_error_None in Hname. lia. }
    rewrite (main_run upper argv name Hge Hname). cbv zeta.
    destruct (lookup globals name) as [[f | m | a] | e] eqn:Hl.
    + right. destruct (call_result upper f _) as [out | e] eqn:Hc.
      * right. exists name, f, (Py.join " " (skipn 2 argv)), out. auto.
      * left. exists name, f, (Py.join " " (skipn 2 argv)), e. auto.
    + left. eexists _, _. reflexivity.
    + left. eexists _, _. reflexivity.
    + left. rewrite (lookup_raises_KeyError _ _ _ Hl).
      eexists _, _. reflexivity.
Qed.

(** X7. With at least one word after an exposed name, the dispatcher looks
    the name up, calls the function on the words joined with single spaces
    and prints what it returns; when [get_ctests] raises, the exception
    leaves the dispatcher and nothing is printed. *)
Theorem main_dispatches (upper : string -> string) (prog : string)
    (args : list string) :
  args <> [] ->
  let arg := Py.join " " args in
  main upper (prog :: "reverse_words" :: args)
  = ([Lookup "reverse_words"; Call F_reverse_words arg;
      Print (reverse_words arg)], Returned None)
  /\ main upper (prog :: "to_upper" :: args)
     = ([Lookup "to_upper"; Call F_to_upper arg;
         Print (to_upper upper arg)],
        Returned None)
  /\ main upper (prog :: "remove_vowels" :: args)
     = ([Lookup "remove_vowels"; Call F_remove_vowels arg;
         Print (remove_vowels arg)], Returned None)
  /\ main upper (prog :: "get_ctests" :: args)
     = match get_ctests arg with
       | Returned out =>
           ([Lookup "get_ctests"; Call F_get_ctests arg; Print out],
            Returned None)
       | Raised e => ([Lookup "get_ctests"; Call F_get_ctests arg], Raised e)
       end.
Proof.
  intros Hargs arg.
  assert (Hlen : forall name, 3 <= length (prog :: name :: args)).
  { intros name. destruct args; [contradiction | simpl; lia]. }
  repeat split.
  - rewrite (main_run upper _ "reverse_words" (Hlen _) eq_refl). reflexivity.
  - rewrite (main_run upper _ "to_upper" (Hlen _) eq_refl). reflexivity.
  - rewrite (main_run upper _ "remove_vowels" (Hlen _) eq_refl). reflexivity.
  - rewrite (main_run upper _ "get_ctests" (Hlen _) eq_refl). reflexivity.
Qed.

Lemma main_dispatches_witness :
  main Py.ascii_upper ["frontier_utils.py"; "to_upper"; "go"; "team"]
  = ([Lookup "to_upper"; Call F_to_upper "go team"; Print "GO;TEAM"],
     Returned None).
Proof.
  assert (H : ["go"; "team"] <> []) by discriminate.
  exact (proj1 (proj2 (main_dispatches Py.ascii_upper "frontier_utils.py"
                         ["go"; "team"] H))).
Defined.

(** ** The parser: how a pass and the loop depend on the lines *)

Lemma nth_error_app_shift {A : Type} (pre rest : list A) (j : nat) :
  nth_error (pre ++ rest) (length pre + j) = nth_error rest j.
Proof. induction pre as [|a pre IH]; simpl; auto. Qed.

Lemma nth_error_app_Some {A : Type} (pre rest : list A) (j : nat) (a : A) :
  nth_error pre j = Some a -> nth_error (pre ++ rest) j = Some a.
Proof.
  intros H. rewrite nth_error_app1; [exact H |].
  apply nth_error_Some. rewrite H. discriminate.
Qed.

(** A pass reads the lines from the cursor on and nothing before. *)
Lemma get_ctests_body_shift (pre rest : list string) (i : nat)
    (ctests : list string) :
  get_ctests_body (pre ++ rest) (length pre + i) ctests =
  match get_ctests_body rest i ctests with
  | Returned (i', ctests') => Returned (length pre + i', ctests')
  | Raised e => Raised e
  end.
Proof.
  unfold get_ctests_body, bind, Py.getitem. cbv zeta.
  replace (length pre + i + 1) with (length pre + (i + 1)) by lia.
  replace (length pre + (i + 1) + 1) with (length pre + (i + 1 + 1)) by lia.
  replace (length pre + (i + 1 + 1) + 1)
    with (length pre + (i + 1 + 1 + 1)) by lia.
  rewrite !nth_error_app_shift.
  repeat match goal with
         | |- context [nth_error ?l ?j] => destruct (nth_error l j)
         | |- context [Py.last_item ?l] => destruct (Py.last_item l)
         | |- context [(?z <? 0)%Z] => destruct (z <? 0)%Z
         end; reflexivity.
Qed.

(** A pass that returns has read inside the list: the cursor it leaves is
    at most the number of lines, and at most three lines further. *)
Lemma get_ctests_body_range (lines : list string) (index : nat)
    (ctests : list string) (index' : nat) (ctests' : list string) :
  get_ctests_body lines index ctests = Returned (index', ctests') ->
  index < index' <= index + 3 /\ index' <= length lines.
Proof.
  unfold get_ctests_body, bind, Py.getitem. cbv zeta.
  destruct (nth_error lines index) as [l1|] eqn:E1; [| discriminate].
  assert (B1 : index < length lines)
    by (apply nth_error_Some; rewrite E1; discriminate).
  destruct (Py.find l1 CmdStr <? 0)%Z.
  { intros H; inversion H; subst. lia. }
  destruct (Py.last_item _); [| discriminate].
  destruct (nth_error lines (index + 1)) as [l2|] eqn:E2; [| discriminate].
  assert (B2 : index + 1 < length lines)
    by (apply nth_error_Some; rewrite E2; discriminate).
  destruct (Py.find l2 DirStr <? 0)%Z.
  { intros H; inversion H; subst. lia. }
  destruct (nth_error lines (index + 1 + 1)) as [l3|] eqn:E3; [| discriminate].
  assert (B3 : index + 1 + 1 < length lines)
    by (apply nth_error_Some; rewrite E3; discriminate).
  destruct (Py.find l3 TestStr <? 0)%Z.
  { intros H; inversion H; subst. lia. }
  destruct (Py.last_item _); [| discriminate].
  intros H; inversion H; subst. lia.
Qed.

(** Lines added after the transcript do not change a pass that returns. *)
Lemma get_ctests_body_extend (pre rest : list string) (index : nat)
    (ctests : list string) (x : nat * list string) :
  get_ctests_body pre index ctests = Returned x ->
  get_ctests_body (pre ++ rest) index ctests = Returned x.
Proof.
  unfold get_ctests_body, bind, Py.getitem. cbv zeta.
  destruct (nth_error pre index) as [l1|] eqn:E1; [| discriminate].
  rewrite (nth_error_app_Some _ rest _ _ E1).
  destruct (Py.find l1 CmdStr <? 0)%Z; [auto |].
  destruct (Py.last_item _); [| discriminate].
  destruct (nth_error pre (index + 1)) as [l2|] eqn:E2; [| discriminate].
  rewrite (nth_error_app_Some _ rest _ _ E2).
  destruct (Py.find l2 DirStr <? 0)%Z; [auto |].
  destruct (nth_error pre (index + 1 + 1)) as [l3|] eqn:E3; [| discriminate].
  rewrite (nth_error_app_Some _ rest _ _ E3).
  auto.
Qed.

(** The records collected before a pass are kept, in place. *)
Lemma get_ctests_body_acc (lines : list string) (index : nat)
    (ctests : list string) :
  get_ctests_body lines index ctests =
  match get_ctests_body lines index [] with
  | Returned (index', new) => Returned (index', ctests ++ new)
  | Raised e => Raised e
  end.
Proof.
  unfold get_ctests_body, bind, Py.getitem. cbv zeta.
  repeat match goal with
         | |- context [nth_error ?l ?j] => destruct (nth_error l j)
         | |- context [Py.last_item ?l] => destruct (Py.last_item l)
         | |- context [(?z <? 0)%Z] => destruct (z <? 0)%Z
         end; rewrite ?app_nil_r; reflexivity.
Qed.

Lemma get_ctests_loop_shift (pre rest : list string) :
  forall (n i : nat) (ctests : list string),
    length rest - i <= n ->
    get_ctests_loop (pre ++ rest) (length pre + i) ctests
    = get_ctests_loop rest i ctests.
Proof.
  assert (Hend : forall i ctests,
             (i <? length rest)%nat = false ->
             get_ctests_loop (pre ++ rest) (length pre + i) ctests
             = get_ctests_loop rest i ctests).
  { intros i ctests Hlt.
    rewrite (get_ctests_loop_eq (pre ++ rest)), (get_ctests_loop_eq rest).
    rewrite length_app, Hlt. apply Nat.ltb_ge in Hlt.
    assert (H : (length pre + i <? length pre + length rest)%nat = false)
      by (apply Nat.ltb_ge; lia).
    now rewrite H. }
  induction n as [|n IH]; intros i ctests Hn;
    destruct (i <? length rest)%nat eqn:Hlt;
    try (now apply Hend);
    apply Nat.ltb_lt in Hlt; [lia |].
  rewrite (get_ctests_loop_eq (pre ++ rest)), (get_ctests_loop_eq rest).
  rewrite length_app.
  assert (H : (length pre + i <? length pre + length rest)%nat = true)
    by (apply Nat.ltb_lt; lia).
  apply Nat.ltb_lt in Hlt.
  rewrite H, Hlt, get_ctests_body_shift.
  destruct (get_ctests_body rest i ctests) as [[i' c']|e] eqn:Hbody;
    [| reflexivity].
  apply get_ctests_body_range in Hbody.
  apply IH. lia.
Qed.

Lemma get_ctests_loop_acc (lines : list string) :
  forall (n index : nat) (ctests : list string),
    length lines - index <= n ->
    get_ctests_loop lines index ctests
    = (new <- get_ctests_loop lines index [] ;; Returned (ctests ++ new)).
Proof.
  induction n as [|n IH]; intros index ctests Hn;
    rewrite (get_ctests_loop_eq lines index ctests),
            (get_ctests_loop_eq lines index []);
    destruct (index <? length lines)%nat eqn:Hlt;
    try (apply Nat.ltb_lt in Hlt; lia);
    try (simpl; now rewrite app_nil_r).
  rewrite (get_ctests_body_acc lines index ctests).
  destruct (get_ctests_body lines index []) as [[i' new]|e] eqn:Hbody;
    [| reflexivity].
  apply get_ctests_body_range in Hbody.
  rewrite (IH i' (ctests ++ new)) by lia.
  rewrite (IH i' new) by lia.
  destruct (get_ctests_loop lines i' []) as [rs|e]; simpl;
    [now rewrite app_assoc | reflexivity].
Qed.

Lemma get_ctests_loop_app_from (pre rest rs0 : list string) :
  forall n index ctests,
    length pre - index <= n -> index <= length pre ->
    get_ctests_loop pre index ctests = Returned rs0 ->
    get_ctests_loop (pre ++ rest) index ctests
    = get_ctests_loop rest 0 rs0.
Proof.
  assert (Hend : forall index ctests,
             index <= length pre ->
             (index <? length pre)%nat = false ->
             get_ctests_loop pre index ctests = Returned rs0 ->
             get_ctests_loop (pre ++ rest) index ctests
             = get_ctests_loop rest 0 rs0).
  { intros index ctests Hle Hlt. rewrite (get_ctests_loop_eq pre), Hlt.
    apply Nat.ltb_ge in Hlt. intros H; inversion H; subst.
    replace index with (length pre + 0) by lia.
    apply (get_ctests_loop_shift pre rest (length rest)). lia. }
  induction n as [|n IH]; intros index ctests Hn Hle;
    destruct (index <? length pre)%nat eqn:Hlt;
    try (now apply Hend);
    apply Nat.ltb_lt in Hlt; [lia |].
  rewrite (get_ctests_loop_eq pre).
  assert (Hlt' : (index <? length pre)%nat = true)
    by (apply Nat.ltb_lt; lia).
  rewrite Hlt'.
  destruct (get_ctests_body pre index ctests) as [[i' c']|e] eqn:Hbody;
    [| discriminate].
  intros Hloop.
  rewrite (get_ctests_loop_eq (pre ++ rest)), length_app.
  assert (H : (index <? length pre + length rest)%nat = true)
    by (apply Nat.ltb_lt; lia).
  rewrite H, (get_ctests_body_extend _ rest _ _ _ Hbody).
  apply get_ctests_body_range in Hbody.
  apply (IH i' c'); [lia | lia | exact Hloop].
Qed.

(** X8. Scanning a transcript followed by more lines: when the transcript
    alone is scanned without an exception, the scan of the whole gives its
    records, then those of the lines that follow, scanned on their own
    (or the exception they raise). *)
Theorem get_ctests_loop_app (pre rest rs0 : list string) :
  get_ctests_loop pre 0 [] = Returned rs0 ->
  get_ctests_loop (pre ++ rest) 0 []
  = (rs <- get_ctests_loop rest 0 [] ;; Returned (rs0 ++ rs)).
Proof.
  intros Hpre.
  rewrite (get_ctests_loop_app_from pre rest rs0 (length pre) 0 []
             ltac:(lia) ltac:(lia) Hpre).
  apply (get_ctests_loop_acc rest (length rest)). lia.
Qed.

Lemma get_ctests_loop_app_witness :
  get_ctests_loop
    (["1: Test command: /bin/a"; "1: Working Directory: /w"; "  Test #1: t1"]
       ++ ["2: Test command: /bin/b"; "2: Working Directory: /w";
           "  Test #2: t2"]) 0 []
  = (rs <- get_ctests_loop
             ["2: Test command: /bin/b"; "2: Working Directory: /w";
              "  Test #2: t2"] 0 [] ;;
     Returned (["/bin/a,/bin/a, /w,t1"] ++ rs)).
Proof.
  refine (get_ctests_loop_app _ _ _ _). vm_compute. reflexivity.
Defined.

(** ** The parser on transcripts that are aligned *)

(** A line that holds ["Test"] holds a word. *)
Lemma index_Test_not_blank (l : string) (p : nat) :
  String.index 0 TestStr l = Some p -> all_space l = false.
Proof.
  revert p. induction l as [|c l IH]; intros p; [discriminate |].
  unfold TestStr. cbn [String.index String.prefix].
  destruct (ascii_dec "T" c) as [<- | Hne].
  - intros _. reflexivity.
  - destruct (String.index 0 "Test" l) as [q|] eqn:Hq; [| discriminate].
    intros _. cbn [all_space]. rewrite (IH q Hq). apply andb_false_r.
Qed.

Lemma find_Test_not_blank (l : string) :
  (0 <= Py.find l TestStr)%Z -> all_space l = false.
Proof.
  unfold Py.find.
  destruct (String.index 0 TestStr l) as [p|] eqn:Hp; [| lia].
  intros _. exact (index_Test_not_blank l p Hp).
Qed.

Lemma last_item_last_word (s : string) :
  all_space s = false ->
  Py.last_item (Py.split_ws s) = Returned (last_word s).
Proof.
  intros Hs. unfold last_word.
  destruct (last_item_nonempty (Py.split_ws s)) as [w Hw].
  - intros H. apply split_ws_nil in H. congruence.
  - rewrite Hw. reflexivity.
Qed.

(** A pass on a line without the command marker: one line further. *)
Lemma get_ctests_loop_other (l : string) (ls ctests : list string) :
  (Py.find l CmdStr < 0)%Z ->
  get_ctests_loop (l :: ls) 0 ctests = get_ctests_loop ls 0 ctests.
Proof.
  intros Hl. rewrite get_ctests_loop_eq.
  unfold get_ctests_body, bind, Py.getitem. cbv zeta.
  cbn [length Nat.ltb Nat.leb nth_error].
  apply Z.ltb_lt in Hl. rewrite Hl.
  exact (get_ctests_loop_shift [l] ls (length ls) 0 ctests ltac:(lia)).
Qed.

(** A pass on a complete group: its record, and three lines further. *)
Lemma get_ctests_loop_group (c d t : string) (ls ctests : list string) :
  (0 <= Py.find c CmdStr)%Z ->
  all_space (text_after c CmdStr) = false ->
  (0 <= Py.find d DirStr)%Z ->
  (0 <= Py.find t TestStr)%Z ->
  get_ctests_loop (c :: d :: t :: ls) 0 ctests
  = get_ctests_loop ls 0 (ctests ++ [record_of c d t]).
Proof.
  intros Hc Hcmd Hd Ht. rewrite get_ctests_loop_eq.
  unfold get_ctests_body, bind, Py.getitem. cbv zeta.
  cbn [length Nat.ltb Nat.leb nth_error Nat.add].
  apply Z.ltb_ge in Hc, Hd. rewrite Hc, Hd.
  pose proof (last_item_last_word _ Hcmd) as HExe.
  unfold text_after in HExe. rewrite HExe.
  pose proof (last_item_last_word _ (find_Test_not_blank t Ht)) as HTest.
  apply Z.ltb_ge in Ht. rewrite Ht, HTest.
  exact (get_ctests_loop_shift [c; d; t] ls (length ls) 0 _ ltac:(lia)).
Qed.

Lemma get_ctests_loop_aligned (lines rs : list string) :
  aligned lines rs ->
  forall ctests, get_ctests_loop lines 0 ctests = Returned (ctests ++ rs).
Proof.
  induction 1 as [| l ls rs Hl _ IH | c d t ls rs Hc Hcmd Hd Ht _ IH];
    intros ctests.
  - rewrite get_ctests_loop_eq. simpl. now rewrite app_nil_r.
  - rewrite (get_ctests_loop_other l ls ctests Hl). apply IH.
  - rewrite (get_ctests_loop_group c d t ls ctests Hc Hcmd Hd Ht).
    rewrite IH, <- app_assoc. reflexivity.
Qed.

(** X9. On a transcript that is aligned (lines without the command marker
    and complete groups, each a command line with a command that is not
    blank, a directory line and a test-name line), [get_ctests] raises
    nothing and returns the records of all its groups, in order, joined
    with [";"]. *)
Theorem get_ctests_aligned (ctest_output : string) (rs : list string) :
  aligned (Py.split ctest_output "_NEWLINE_") rs ->
  get_ctests ctest_output = Returned (Py.join ";" rs).
Proof.
  intros Hal. unfold get_ctests, bind.
  rewrite (get_ctests_loop_aligned _ _ Hal []). reflexivity.
Qed.

Lemma get_ctests_aligned_witness :
  get_ctests
    "Test project /w_NEWLINE_1: Test command: /bin/a -x_NEWLINE_1: Working Directory: /w_NEWLINE_  Test #1: t1_NEWLINE__NEWLINE_2: Test command: /bin/b_NEWLINE_2: Working Directory: /w_NEWLINE_  Test #2: t2_NEWLINE_"
  = Returned
      (Py.join ";"
         [record_of "1: Test command: /bin/a -x" "1: Working Directory: /w"
            "  Test #1: t1";
          record_of "2: Test command: /bin/b" "2: Working Directory: /w"
            "  Test #2: t2"]).
Proof.
  apply get_ctests_aligned.
  change (Py.split _ "_NEWLINE_")
    with ["Test project /w";
          "1: Test command: /bin/a -x"; "1: Working Directory: /w";
          "  Test #1: t1"; "";
          "2: Test command: /bin/b"; "2: Working Directory: /w";
          "  Test #2: t2"; ""].
  apply aligned_other; [vm_compute; reflexivity |].
  apply aligned_group;
    [vm_compute; discriminate | reflexivity
     | vm_compute; discriminate | vm_compute; discriminate |].
  apply aligned_other; [vm_compute; reflexivity |].
  apply aligned_group;
    [vm_compute; discriminate | reflexivity
     | vm_compute; discriminate | vm_compute; discriminate |].
  apply aligned_other; [vm_compute; reflexivity |].
  apply aligned_nil.
Defined.

Lemma aligned_no_command (lines : list string) :
  Forall (fun l => (Py.find l CmdStr < 0)%Z) lines -> aligned lines [].
Proof.
  induction 1 as [|l ls Hl _ IH]; [constructor | now apply aligned_other].
Qed.

(** X10. A transcript none of whose lines holds the command marker gives
    the empty string; so does the empty input. *)
Theorem get_ctests_no_command (ctest_output : string) :
  Forall (fun l => (Py.find l CmdStr < 0)%Z)
         (Py.split ctest_output "_NEWLINE_") ->
  get_ctests ctest_output = Returned "".
Proof.
  intros Hall. unfold get_ctests, bind.
  rewrite (get_ctests_loop_aligned _ [] (aligned_no_command _ Hall) []).
  reflexivity.
Qed.

Lemma get_ctests_no_command_witness :
  get_ctests "" = Returned ""
  /\ get_ctests "Test project /w_NEWLINE_No tests were found!!!"
     = Returned "".
Proof.
  split; apply get_ctests_no_command.
  - change (Py.split "" "_NEWLINE_") with [""].
    constructor; [vm_compute; reflexivity | constructor].
  - change (Py.split _ "_NEWLINE_")
      with ["Test project /w"; "No tests were found!!!"].
    repeat (constructor; [vm_compute; reflexivity |]). constructor.
Defined.

(** ** The parser: bounds and exceptions *)

Lemma emitted_from_bound (lines : list string) (lo : nat) (idxs : list nat)
    (rs : list string) :
  emitted_from lines lo idxs rs -> 3 * length rs <= length lines - lo.
Proof.
  induction 1 as [lo | lo i r idxs rs Hi Hg _ IH]; simpl; [lia |].
  destruct Hg as [l1 l2 l3 Exe Test _ _ H3 _ _ _ _ _].
  assert (i + 2 < length lines)
    by (apply nth_error_Some; rewrite H3; discriminate).
  lia.
Qed.

(** X11. The scan makes at most one record of three lines: three times
    the number of records is at most the number of lines. *)
Theorem get_ctests_loop_count (lines rs : list string) :
  get_ctests_loop lines 0 [] = Returned rs ->
  3 * length rs <= length lines.
Proof.
  intros Hloop.
  destruct (get_ctests_loop_emitted lines (length lines) 0 [] rs
              ltac:(lia) Hloop) as [idxs [new [-> Hem]]].
  apply emitted_from_bound in Hem. simpl. lia.
Qed.

Lemma get_ctests_loop_count_witness :
  3 * length ["/bin/a,/bin/a, /w,t1"]
  <= length ["1: Test command: /bin/a"; "1: Working Directory: /w";
             "  Test #1: t1"; ""].
Proof.
  refine (get_ctests_loop_count _ _ _). vm_compute. reflexivity.
Defined.

Lemma last_item_In {A : Type} (l : list A) (a : A) :
  Py.last_item l = Returned a -> In a l.
Proof.
  unfold Py.last_item. destruct (rev l) as [|x l'] eqn:Hrev; [discriminate |].
  intros H; inversion H; subst. apply In_rev. rewrite Hrev. now left.
Qed.

Lemma last_item_word (s w : string) :
  Py.last_item (Py.split_ws s) = Returned w -> is_word w.
Proof.
  intros H. apply last_item_In in H.
  pose proof (split_ws_words s) as Hw.
  rewrite Forall_forall in Hw. now apply Hw.
Qed.

(** X12. In every record that the scan returns, the executable and the
    test name (second and fourth field) are words: they are not empty and
    hold no whitespace. *)
Theorem get_ctests_loop_fields (lines rs : list string) :
  get_ctests_loop lines 0 [] = Returned rs ->
  Forall (fun r =>
            exists Cmd Exe Dir Test,
              r = (Cmd ++ "," ++ Exe ++ "," ++ Dir ++ "," ++ Test)%string
              /\ is_word Exe /\ is_word Test) rs.
Proof.
  intros Hloop.
  destruct (get_ctests_loop_emitted lines (length lines) 0 [] rs
              ltac:(lia) Hloop) as [idxs [new [-> Hem]]].
  simpl. clear Hloop.
  induction Hem as [lo | lo i r idxs rs Hi Hg _ IH]; constructor; [| exact IH].
  destruct Hg as [l1 l2 l3 Exe Test _ _ _ _ _ _ HExe HTest].
  exists (text_after l1 CmdStr), Exe, (text_after l2 DirStr), Test.
  split; [reflexivity |].
  split; [exact (last_item_word _ _ HExe) | exact (last_item_word _ _ HTest)].
Qed.

Lemma get_ctests_loop_fields_witness :
  Forall (fun r =>
            exists Cmd Exe Dir Test,
              r = (Cmd ++ "," ++ Exe ++ "," ++ Dir ++ "," ++ Test)%string
              /\ is_word Exe /\ is_word Test)
         ["/bin/a -x,-x, /w,t1"].
Proof.
  refine (get_ctests_loop_fields
            ["1: Test command: /bin/a -x"; "1: Working Directory: /w";
             "  Test #1: t1"; ""] _ _).
  vm_compute. reflexivity.
Defined.

(** X13. The only exception that leaves [get_ctests] is [IndexError]. *)
Theorem get_ctests_only_IndexError (ctest_output : string) (e : exn) :
  get_ctests ctest_output = Raised e -> e = IndexError.
Proof.
  unfold get_ctests, bind.
  destruct (get_ctests_loop _ 0 []) as [rs|e'] eqn:Hloop; [discriminate |].
  intros H; inversion H; subst.
  exact (get_ctests_loop_raises _ _ 0 [] e (Nat.le_refl _) Hloop).
Qed.

Lemma get_ctests_only_IndexError_witness :
  get_ctests ": Test command: /bin/a" = Raised IndexError
  /\ IndexError = IndexError.
Proof.
  assert (H : get_ctests ": Test command: /bin/a" = Raised IndexError)
    by (vm_compute; reflexivity).
  split; [exact H | exact (get_ctests_only_IndexError _ _ H)].
Defined.

(** X14. When a pass raises, exactly: the line at the cursor holds the
    command marker, and the command is blank, or no line follows, or the
    next line holds the directory marker and no line follows it. *)
Theorem get_ctests_body_raises_iff (lines : list string) (index : nat)
    (ctests : list string) :
  index < length lines ->
  (exists e, get_ctests_body lines index ctests = Raised e)
  <-> exists c,
        nth_error lines index = Some c
        /\ (0 <= Py.find c CmdStr)%Z
        /\ (all_space (text_after c CmdStr) = true
            \/ length lines <= index + 1
            \/ exists d,
                 nth_error lines (index + 1) = Some d
                 /\ (0 <= Py.find d DirStr)%Z
                 /\ length lines <= index + 2).
Proof.
  intros Hlt.
  destruct (nth_error lines index) as [c|] eqn:E1.
  2: { apply nth_error_None in E1. lia. }
  unfold get_ctests_body, bind, Py.getitem. cbv zeta. rewrite E1.
  replace (index + 1 + 1) with (index + 2) by lia.
  destruct (Py.find c CmdStr <? 0)%Z eqn:P1.
  { apply Z.ltb_lt in P1. split.
    - intros [e H]. discriminate.
    - intros [c' [Hc' [Hpos _]]]. inversion Hc'; subst. lia. }
  apply Z.ltb_ge in P1.
  destruct (all_space (text_after c CmdStr)) eqn:Hblank.
  { assert (Hnil : Py.split_ws (text_after c CmdStr) = [])
      by now apply split_ws_nil.
    unfold text_after in Hnil. rewrite Hnil. simpl. split.
    - intros _. exists c. auto.
    - intros _. eexists. reflexivity. }
  pose proof (last_item_last_word _ Hblank) as HExe.
  unfold text_after in HExe. rewrite HExe.
  destruct (nth_error lines (index + 1)) as [d|] eqn:E2.
  2: { apply nth_error_None in E2. split.
       - intros _. exists c. repeat split; auto.
       - intros _. eexists. reflexivity. }
  assert (B2 : index + 1 < length lines)
    by (apply nth_error_Some; rewrite E2; discriminate).
  destruct (Py.find d DirStr <? 0)%Z eqn:P2.
  { apply Z.ltb_lt in P2. split.
    - intros [e H]. discriminate.
    - intros [c' [Hc' [_ [H | [H | [d' [Hd' [Hpos _]]]]]]]];
        [inversion Hc'; subst; congruence | lia |].
      inversion Hd'; subst. lia. }
  apply Z.ltb_ge in P2.
  destruct (nth_error lines (index + 2)) as [t|] eqn:E3.
  2: { apply nth_error_None in E3. split.
       - intros _. exists c. repeat split; auto.
         right. right. exists d. auto.
       - intros _. eexists. reflexivity. }
  assert (B3 : index + 2 < length lines)
    by (apply nth_error_Some; rewrite E3; discriminate).
  assert (Hret : forall X : Prop,
             (exists c',
                 Some c = Some c'
                 /\ (0 <= Py.find c' CmdStr)%Z
                 /\ (all_space (text_after c' CmdStr) = true
                     \/ length lines <= index + 1
                     \/ exists d',
                          Some d = Some d'
                          /\ (0 <= Py.find d' DirStr)%Z
                          /\ length lines <= index + 2)) -> X).
  { intros X [c' [Hc' [_ [H | [H | [d' [_ [_ H]]]]]]]];
      [inversion Hc'; subst; congruence | lia | lia]. }
  destruct (Py.find t TestStr <? 0)%Z eqn:P3.
  { split; [intros [e H]; discriminate | apply Hret]. }
  apply Z.ltb_ge in P3.
  rewrite (last_item_last_word _ (find_Test_not_blank t P3)).
  split; [intros [e H]; discriminate | apply Hret].
Qed.

Lemma get_ctests_body_raises_iff_witness :
  (exists e,
      get_ctests_body
        ["1: Test command: /bin/a"; "1: Working Directory: /w"] 0 []
      = Raised e).
Proof.
  refine (proj2 (get_ctests_body_raises_iff
                   ["1: Test command: /bin/a"; "1: Working Directory: /w"]
                   0 [] _) _).
  - simpl; lia.
  - exists "1: Test command: /bin/a".
    split; [reflexivity |]. split; [vm_compute; discriminate |].
    right. right. exists "1: Working Directory: /w".
    split; [reflexivity |]. split; [vm_compute; discriminate | simpl; lia].
Defined.

(** X15. A transcript that is scanned without an exception, followed by one
    last line that holds the command marker, makes the scan raise
    [IndexError]: the lines of the group are missing. *)
Theorem get_ctests_loop_truncated (pre rs0 : list string) (c : string) :
  get_ctests_loop pre 0 [] = Returned rs0 ->
  (0 <= Py.find c CmdStr)%Z ->
  get_ctests_loop (pre ++ [c]) 0 [] = Raised IndexError.
Proof.
  intros Hpre Hc.
  rewrite (get_ctests_loop_app_from pre [c] rs0 (length pre) 0 []
             ltac:(lia) ltac:(lia) Hpre).
  apply (get_ctests_loop_last_command_line [c] 0 rs0 c);
    [reflexivity | reflexivity | exact Hc].
Qed.

Lemma get_ctests_loop_truncated_witness :
  get_ctests_loop
    (["1: Test command: /bin/a"; "1: Working Directory: /w"; "  Test #1: t1"]
       ++ ["2: Test command: /bin/b"]) 0 []
  = Raised IndexError.
Proof.
  refine (get_ctests_loop_truncated _ ["/bin/a,/bin/a, /w,t1"] _ _ _).
  - vm_compute. reflexivity.
  - vm_compute. discriminate.
Defined.

(** ** Splitting into lines loses nothing *)

Lemma prefix_drop (a s : string) :
  String.prefix a s = true -> s = (a ++ Py.drop (String.length a) s)%string.
Proof.
  revert s. induction a as [|x a IH]; intros s; [reflexivity |].
  destruct s as [|y s]; simpl; [discriminate |].
  destruct (ascii_dec x y) as [<- | _]; [| discriminate].
  intros H. now rewrite <- (IH s H).
Qed.

Lemma index_cut (sep s : string) (p : nat) :
  String.index 0 sep s = Some p ->
  s = (String.substring 0 p s ++ sep
         ++ Py.drop (p + String.length sep) s)%string.
Proof.
  revert p. induction s as [|c s IH]; intros p.
  - destruct sep; simpl; [| discriminate].
    intros H; inversion H; reflexivity.
  - cbn [String.index].
    destruct (String.prefix sep (String c s)) eqn:Hp.
    + intros H; inversion H; subst.
      destruct sep as [|x sep']; [reflexivity |].
      exact (prefix_drop _ _ Hp).
    + destruct (String.index 0 sep s) as [q|]; [| discriminate].
      intros H; inversion H; subst.
      cbn [String.substring Nat.add Py.drop String.append].
      now rewrite <- (IH q eq_refl).
Qed.

Lemma drop_length (n : nat) (s : string) :
  String.length (Py.drop n s) = String.length s - n.
Proof.
  revert s. induction n as [|n IH]; intros [|c s]; simpl; auto.
Qed.

Lemma split_from_nonempty (sep : string) (k : nat) (cur s : string) :
  Py.split_from sep k cur s <> [].
Proof.
  revert k cur. induction s as [|c s IH]; intros k cur;
    cbn [Py.split_from]; [discriminate |].
  destruct k; [| apply IH].
  destruct (String.prefix sep (String c s)); [discriminate | apply IH].
Qed.

Lemma join_split_from (sep : string) :
  sep <> "" ->
  forall (n : nat) (s cur : string),
    String.length s <= n ->
    Py.join sep (Py.split_from sep 0 cur s) = (cur ++ s)%string.
Proof.
  intros Hsep. induction n as [|n IH]; intros s cur Hn;
    rewrite (split_from_spec sep Hsep).
  - destruct s; [| simpl in Hn; lia].
    destruct sep; [contradiction | reflexivity].
  - destruct (String.index 0 sep s) as [p|] eqn:Hp; [| reflexivity].
    rewrite join_cons by apply split_from_nonempty.
    assert (Hs : s <> "").
    { intros ->. destruct sep; [contradiction | discriminate]. }
    rewrite IH.
    + rewrite (index_cut sep s p Hp) at 3.
      simpl. now rewrite append_assoc.
    + rewrite drop_length.
      destruct sep; [contradiction |]. destruct s; [contradiction |].
      cbn [String.length] in *. lia.
Qed.

(** X16. The split on the sentinel loses no character: the lines that
    [get_ctests] scans, joined again with [_NEWLINE_] between them, are the
    input; and there is always at least one line. *)
Theorem split_NEWLINE_join (ctest_output : string) :
  Py.join "_NEWLINE_" (Py.split ctest_output "_NEWLINE_") = ctest_output
  /\ Py.split ctest_output "_NEWLINE_" <> [].
Proof.
  split.
  - unfold Py.split.
    apply (join_split_from "_NEWLINE_" ltac:(discriminate)
             (String.length ctest_output)). lia.
  - apply split_from_nonempty.
Qed.

(** X17. An input without the sentinel is one line; when it holds the
    command marker, [get_ctests] raises [IndexError], whatever else it
    holds. *)
Theorem get_ctests_one_line (ctest_output : string) :
  (Py.find ctest_output "_NEWLINE_" < 0)%Z ->
  (0 <= Py.find ctest_output CmdStr)%Z ->
  get_ctests ctest_output = Raised IndexError.
Proof.
  intros Hsep Hcmd. unfold get_ctests, bind.
  rewrite (split_spec ctest_output "_NEWLINE_" ltac:(discriminate)).
  unfold Py.find in Hsep.
  destruct (String.index 0 "_NEWLINE_" ctest_output); [lia |].
  rewrite (get_ctests_loop_last_command_line [ctest_output] 0 []
             ctest_output eq_refl eq_refl Hcmd).
  reflexivity.
Qed.

Lemma get_ctests_one_line_witness :
  get_ctests "1: Test command: /bin/a -x" = Raised IndexError.
Proof.
  refine (get_ctests_one_line _ _ _).
  - vm_compute. reflexivity.
  - vm_compute. discriminate.
Defined.

Lemma flat_map_split_ws_words (words : list string) :
  Forall is_word words -> flat_map Py.split_ws words = words.
Proof.
  induction 1 as [|w words [Hs Hne] _ IH]; [reflexivity |].
  simpl. rewrite (split_ws_no_space w Hs Hne), IH. reflexivity.
Qed.

(** X18. On words joined with single spaces (what the dispatcher passes
    when each argument is one word), [reverse_words] returns the words in
    reverse order and [to_upper] returns them in upper case, joined with
    [";"]. *)
Theorem helpers_on_words (upper : string -> string) (words : list string) :
  Forall is_word words ->
  reverse_words (Py.join " " words) = Py.join ";" (rev words)
  /\ to_upper upper (Py.join " " words) = Py.join ";" (map upper words).
Proof.
  intros Hwords. unfold reverse_words, to_upper.
  rewrite split_ws_join_space, (flat_map_split_ws_words _ Hwords).
  split; reflexivity.
Qed.

Lemma helpers_on_words_witness :
  reverse_words (Py.join " " ["a"; "b"; "c"]) = "c;b;a"
  /\ to_upper Py.ascii_upper (Py.join " " ["go"; "team"]) = "GO;TEAM".
Proof.
  split.
  - refine (proj1 (helpers_on_words Py.ascii_upper ["a"; "b"; "c"] _)).
    repeat constructor; discriminate.
  - refine (proj2 (helpers_on_words Py.ascii_upper ["go"; "team"] _)).
    repeat constructor; discriminate.
Defined.
